(** * Filter builders of the agent API (src/agent/filters.go)

    A shallow embedding of the filter value objects and of the four filter
    aggregates (archives, customers, chats, threads), with their
    constructors and chained mutators, and of the JSON document that the
    struct tags of the source prescribe for them. *)

From Stdlib Require Import ZArith NArith Ascii DecimalString.
From stdpp Require Import gmap strings list fin_maps sorting.

#[local] Set Warnings "-register-all".
Local Open Scope Z_scope.

(** ** Go values *)

(** Integers ([uint], [int], [int64]) are stored and printed, never
    computed with: they are modelled by [N] and [Z]. *)

(** A Go slice is either nil or a (possibly empty) sequence of elements;
    [vals == nil] in the source tells the two apart, [len] does not. *)
Definition slice (A : Type) : Type := option (list A).

Definition isnil {A} (p : option A) : bool :=
  match p with
  | None => true
  | Some _ => false
  end.

Definition len {A} (s : slice A) : nat :=
  match s with
  | None => O
  | Some l => length l
  end.

(** A Go map is either nil or a finite map. *)
Definition gomap (V : Type) : Type := option (gmap string V).

Definition maplen {V} (m : gomap V) : nat :=
  match m with
  | None => O
  | Some g => size g
  end.

(** ** JSON documents *)

(** The fields of an object are kept in the order in which they are
    written. *)
Inductive json : Type :=
| JNull
| JBool (b : bool)
| JNum (n : Z)
| JStr (s : string)
| JArr (items : list json)
| JObj (fields : list (string * json)).

(** An [interface{}] element of a value list is modelled by the JSON
    value it is encoded as (a nil interface is [JNull]). *)
Definition any : Type := json.

(** Value stored under a key of an object (the first one, keys of the
    objects built below are distinct). *)
Fixpoint assoc (k : string) (fs : list (string * json)) : option json :=
  match fs with
  | [] => None
  | (k', v) :: fs' => if String.eqb k k' then Some v else assoc k fs'
  end.

Definition member (k : string) (j : json) : option json :=
  match j with
  | JObj fs => assoc k fs
  | _ => None
  end.

(** ** JSON text

    Modelled from the spec: the encoder that turns a document into text
    is not part of src/agent/filters.go.  The text is the one Go's JSON
    encoder writes: no white space, integers in decimal, strings quoted
    and escaped with the HTML-safe escapes. *)
Module Text.
Local Open Scope N_scope.

(** Modelled from the spec: a hexadecimal digit, in lower case. *)
Definition hex (n : N) : ascii :=
  ascii_of_N (if n <? 10 then 48 + n else 87 + n).

(** Modelled from the spec: the escape of the code point [b], below
    0x100. *)
Definition u00 (b : N) : string :=
  String "\" (String "u" (String "0" (String "0"
    (String (hex (N.shiftr b 4)) (String (hex (N.land b 15)) EmptyString))))).

(** Modelled from the spec: escape of one byte below 0x80. *)
Definition escape_ascii (a : ascii) : string :=
  let b := N_of_ascii a in
  if (b =? 34) || (b =? 92) then String "\" (String a EmptyString)
  else if (b =? 8) then "\b"
  else if (b =? 12) then "\f"
  else if (b =? 10) then "\n"
  else if (b =? 13) then "\r"
  else if (b =? 9) then "\t"
  else if (b <? 32) then u00 b
  else if (b =? 38) || (b =? 60) || (b =? 62) then u00 b
  else String a EmptyString.

(** Modelled from the spec: continuation bytes, and bytes of a range. *)
Definition cont (a : ascii) : bool :=
  let b := N_of_ascii a in (128 <=? b) && (b <=? 191).

Definition between (lo hi : N) (a : ascii) : bool :=
  let b := N_of_ascii a in (lo <=? b) && (b <=? hi).

(** Modelled from the spec: the range allowed for the second byte of a
    sequence that starts with the byte [b0], and the number of
    continuation bytes; [None] when [b0] cannot start a sequence. *)
Definition lead (b0 : N) : option (N * N * nat) :=
  if (194 <=? b0) && (b0 <=? 223) then Some (128, 191, 1%nat)
  else if (b0 =? 224) then Some (160, 191, 2%nat)
  else if (b0 =? 237) then Some (128, 159, 2%nat)
  else if (225 <=? b0) && (b0 <=? 239) then Some (128, 191, 2%nat)
  else if (b0 =? 240) then Some (144, 191, 3%nat)
  else if (b0 =? 244) then Some (128, 143, 3%nat)
  else if (241 <=? b0) && (b0 <=? 243) then Some (128, 191, 3%nat)
  else None.

(** Modelled from the spec: what is written for an invalid byte. *)
Definition replacement : string := String "\" "ufffd".

(** Modelled from the spec: the bytes of a string, escaped.  An invalid
    byte is replaced by the escape of U+FFFD and the scan resumes at the
    next byte; U+2028 and U+2029 are written as escapes; every other
    well-formed sequence is copied. *)
Fixpoint escape (s : string) : string :=
  match s with
  | EmptyString => EmptyString
  | String a0 s1 =>
    let b0 := N_of_ascii a0 in
    if (b0 <? 128) then escape_ascii a0 +:+ escape s1
    else
      match lead b0 with
      | None => replacement +:+ escape s1
      | Some (lo, hi, n) =>
        match s1 with
        | String a1 s2 =>
          if between lo hi a1 then
            match n with
            | 1%nat => String a0 (String a1 (escape s2))
            | _ =>
              match s2 with
              | String a2 s3 =>
                if cont a2 then
                  match n with
                  | 2%nat =>
                    if (b0 =? 226) && (N_of_ascii a1 =? 128)
                       && between 168 169 a2
                    then "\u202" +:+ String (hex (N.land (N_of_ascii a2) 15))
                                            (escape s3)
                    else String a0 (String a1 (String a2 (escape s3)))
                  | _ =>
                    match s3 with
                    | String a3 s4 =>
                      if cont a3
                      then String a0 (String a1 (String a2
                             (String a3 (escape s4))))
                      else replacement +:+ escape s1
                    | EmptyString => replacement +:+ escape s1
                    end
                  end
                else replacement +:+ escape s1
              | EmptyString => replacement +:+ escape s1
              end
            end
          else replacement +:+ escape s1
        | EmptyString => replacement +:+ escape s1
        end
      end
  end.

(** The double quote. *)
Definition dquote : ascii := ascii_of_N 34.

(** Modelled from the spec: a string between double quotes. *)
Definition quote (s : string) : string :=
  String dquote (escape s +:+ String dquote EmptyString).

(** Modelled from the spec: an integer in decimal. *)
Definition number (n : Z) : string := NilZero.string_of_int (Z.to_int n).

(** Modelled from the spec: the text of a document. *)
Fixpoint encode (j : json) : string :=
  match j with
  | JNull => "null"
  | JBool true => "true"
  | JBool false => "false"
  | JNum n => number n
  | JStr s => quote s
  | JArr items =>
    "[" +:+
    (fix elems (first : bool) (l : list json) : string :=
       match l with
       | [] => EmptyString
       | x :: l' =>
         (if first then EmptyString else ",") +:+ encode x +:+ elems false l'
       end) true items
    +:+ "]"
  | JObj fields =>
    "{" +:+
    (fix members (first : bool) (l : list (string * json)) : string :=
       match l with
       | [] => EmptyString
       | (k, v) :: l' =>
         (if first then EmptyString else ",") +:+ quote k +:+ ":" +:+ encode v
         +:+ members false l'
       end) true fields
    +:+ "}"
  end.

End Text.

(** JSON texts are written below with an apostrophe in the place of
    each double quote. *)
Fixpoint text (s : string) : string :=
  match s with
  | EmptyString => EmptyString
  | String a s' =>
    String (if Ascii.eqb a "'" then Text.dquote else a) (text s')
  end.

(** ** Encoding of Go values

    Modelled from the spec: the serialisation step (the [ToJSON] of the
    spec's examples) is not part of src/agent/filters.go.  Following the
    spec's external interface, an aggregate is written as one JSON object
    with fixed keys, and a field holding a zero, empty or false value is
    left out.  The key of each field, the order of the fields and the
    fields that carry the omission option are the struct tags of the
    source; the values are encoded as Go's JSON encoder does. *)
Module Enc.

(** Modelled from the spec: a field is written unless it carries the
    omission option and is empty. *)
Definition omitempty (empty : bool) (k : string) (v : json)
  : list (string * json) :=
  if empty then [] else [(k, v)].

(** Modelled from the spec: a field without the omission option is
    always written. *)
Definition always (k : string) (v : json) : list (string * json) :=
  [(k, v)].

(** Modelled from the spec: the empty values are false, 0, a nil
    pointer, and any slice, map or string of length 0. *)
Definition empty_bool (b : bool) : bool := negb b.

(** Modelled from the spec: 0 is empty. *)
Definition empty_int (n : Z) : bool := n =? 0.

(** Modelled from the spec: the string of length 0 is empty. *)
Definition empty_string (s : string) : bool := String.eqb s EmptyString.

(** Modelled from the spec: the nil pointer is empty. *)
Definition empty_ptr {A} (p : option A) : bool := isnil p.

(** Modelled from the spec: a slice of length 0, nil or not, is empty. *)
Definition empty_slice {A} (s : slice A) : bool := Nat.eqb (len s) 0.

(** Modelled from the spec: a map of length 0, nil or not, is empty. *)
Definition empty_map {V} (m : gomap V) : bool := Nat.eqb (maplen m) 0.

(** Modelled from the spec: a nil pointer is written [null], another
    one as the value it points to. *)
Definition ptr {A} (f : A -> json) (p : option A) : json :=
  match p with
  | None => JNull
  | Some x => f x
  end.

(** Modelled from the spec: a nil slice is written [null], another one
    as the array of its elements. *)
Definition arr {A} (f : A -> json) (s : slice A) : json :=
  match s with
  | None => JNull
  | Some l => JArr (f <$> l)
  end.

(** Modelled from the spec: the order in which the entries of a map are
    written, by increasing key (byte-wise). *)
Definition key_le {V} (x y : string * V) : Prop := String.le x.1 y.1.

#[global] Instance key_le_dec {V} : RelDecision (@key_le V) :=
  fun x y => decide (String.le x.1 y.1).

(** Modelled from the spec: a nil map is written [null], another one as
    the object of its entries, sorted by key. *)
Definition obj {V} (f : V -> json) (m : gomap V) : json :=
  match m with
  | None => JNull
  | Some g =>
    JObj ((fun kv => (kv.1, f kv.2)) <$> merge_sort key_le (map_to_list g))
  end.

(** Modelled from the spec: an unsigned integer is written as a number. *)
Definition uint (n : N) : json := JNum (Z.of_N n).

End Enc.

(** ** Filter value objects *)

(** A pointer to a value object ([*bool], [*propertyFilterType],
    [*RangeFilter], ...) is modelled by an optional value: [None] is the
    nil pointer. *)

Module propertyFilterType.

Record t : Type := mk {
  Exists : option bool;
  Values : slice any;
  ExcludeValues : slice any;
  RequireEveryValue : option bool
}.

Definition zero : t := mk None None None None.

Definition set_Exists v (p : t) : t :=
  mk v (Values p) (ExcludeValues p) (RequireEveryValue p).
Definition set_Values v (p : t) : t :=
  mk (Exists p) v (ExcludeValues p) (RequireEveryValue p).
Definition set_ExcludeValues v (p : t) : t :=
  mk (Exists p) (Values p) v (RequireEveryValue p).
Definition set_RequireEveryValue v (p : t) : t :=
  mk (Exists p) (Values p) (ExcludeValues p) v.

(** Modelled from the spec: the JSON object of a property filter, from
    the struct tags of [propertyFilterType]. *)
Definition marshal (p : t) : json :=
  JObj (Enc.omitempty (Enc.empty_ptr (Exists p)) "exists"
          (Enc.ptr JBool (Exists p))
        ++ Enc.omitempty (Enc.empty_slice (Values p)) "values"
             (Enc.arr id (Values p))
        ++ Enc.omitempty (Enc.empty_slice (ExcludeValues p)) "exclude_values"
             (Enc.arr id (ExcludeValues p))
        ++ Enc.omitempty (Enc.empty_ptr (RequireEveryValue p))
             "require_every_value" (Enc.ptr JBool (RequireEveryValue p))).

End propertyFilterType.

(** [NewPropertyFilterType] returns a pointer to a new filter object; the
    model returns the object. *)
Definition NewPropertyFilterType (includes : bool) (vals : slice any)
    (requireEveryValue : bool) : propertyFilterType.t :=
  let pft := propertyFilterType.zero in
  if isnil vals then
    propertyFilterType.set_Exists (Some includes) pft
  else if includes then
    propertyFilterType.set_RequireEveryValue (Some requireEveryValue)
      (propertyFilterType.set_Values vals pft)
  else if negb includes then
    propertyFilterType.set_RequireEveryValue (Some requireEveryValue)
      (propertyFilterType.set_ExcludeValues vals pft)
  else pft.

(** PropertiesFilters: map[string]map[string]*propertyFilterType *)
Definition PropertiesFilters : Type :=
  gomap (gomap (option propertyFilterType.t)).

(** Modelled from the spec: the JSON object of the property filters, a
    map of maps. *)
Definition marshal_PropertiesFilters (m : PropertiesFilters) : json :=
  Enc.obj (Enc.obj (Enc.ptr propertyFilterType.marshal)) m.

Module eventTypesFilter.

Record t : Type := mk {
  Values : slice string;
  ExcludeValues : slice string;
  RequireEveryValue : option bool
}.

Definition zero : t := mk None None None.

Definition set_RequireEveryValue v (e : t) : t :=
  mk (Values e) (ExcludeValues e) v.

(** Modelled from the spec: the JSON object of an event-type filter,
    from the struct tags of [eventTypesFilter]. *)
Definition marshal (e : t) : json :=
  JObj (Enc.omitempty (Enc.empty_slice (Values e)) "values"
          (Enc.arr JStr (Values e))
        ++ Enc.omitempty (Enc.empty_slice (ExcludeValues e)) "exclude_values"
             (Enc.arr JStr (ExcludeValues e))
        ++ Enc.omitempty (Enc.empty_ptr (RequireEveryValue e))
             "require_every_value" (Enc.ptr JBool (RequireEveryValue e))).

End eventTypesFilter.

Module SurveyFilter.

(** The Go field [Type] is named [Type_] here. *)
Record t : Type := mk {
  Type_ : string;
  AnswerID : string
}.

(** Modelled from the spec: the JSON object of a survey filter; its two
    fields do not carry the omission option. *)
Definition marshal (s : t) : json :=
  JObj (Enc.always "type" (JStr (Type_ s))
        ++ Enc.always "answer_id" (JStr (AnswerID s))).

End SurveyFilter.

Module stringFilter.

Record t : Type := mk {
  Values : slice string;
  ExcludeValues : slice string
}.

Definition zero : t := mk None None.
Definition set_Values v (f : t) : t := mk v (ExcludeValues f).
Definition set_ExcludeValues v (f : t) : t := mk (Values f) v.

(** Modelled from the spec: the JSON object of a string filter, from
    the struct tags of [stringFilter]. *)
Definition marshal (f : t) : json :=
  JObj (Enc.omitempty (Enc.empty_slice (Values f)) "values"
          (Enc.arr JStr (Values f))
        ++ Enc.omitempty (Enc.empty_slice (ExcludeValues f)) "exclude_values"
             (Enc.arr JStr (ExcludeValues f))).

End stringFilter.

Definition NewStringFilter (values : slice string) (inclusive : bool)
    : stringFilter.t :=
  let sf := stringFilter.zero in
  if inclusive then stringFilter.set_Values values sf
  else stringFilter.set_ExcludeValues values sf.

Module integerFilter.

Record t : Type := mk {
  Values : slice Z;
  ExcludeValues : slice Z
}.

Definition zero : t := mk None None.
Definition set_Values v (f : t) : t := mk v (ExcludeValues f).
Definition set_ExcludeValues v (f : t) : t := mk (Values f) v.

(** Modelled from the spec: the JSON object of an integer filter, from
    the struct tags of [integerFilter]. *)
Definition marshal (f : t) : json :=
  JObj (Enc.omitempty (Enc.empty_slice (Values f)) "values"
          (Enc.arr JNum (Values f))
        ++ Enc.omitempty (Enc.empty_slice (ExcludeValues f)) "exclude_values"
             (Enc.arr JNum (ExcludeValues f))).

End integerFilter.

Definition NewIntegerFilter (values : slice Z) (inclusive : bool)
    : integerFilter.t :=
  let intF := integerFilter.zero in
  if inclusive then integerFilter.set_Values values intF
  else integerFilter.set_ExcludeValues values intF.

Module RangeFilter.

Record t : Type := mk {
  LTE : Z;
  LT : Z;
  GTE : Z;
  GT : Z;
  EQ : Z
}.

Definition zero : t := mk 0 0 0 0 0.

(** Modelled from the spec: the JSON object of a numeric range, from
    the struct tags of [RangeFilter]. *)
Definition marshal (r : t) : json :=
  JObj (Enc.omitempty (Enc.empty_int (LTE r)) "lte" (JNum (LTE r))
        ++ Enc.omitempty (Enc.empty_int (LT r)) "lt" (JNum (LT r))
        ++ Enc.omitempty (Enc.empty_int (GTE r)) "gte" (JNum (GTE r))
        ++ Enc.omitempty (Enc.empty_int (GT r)) "gt" (JNum (GT r))
        ++ Enc.omitempty (Enc.empty_int (EQ r)) "eq" (JNum (EQ r))).

End RangeFilter.

Module DateRangeFilter.

Record t : Type := mk {
  LTE : string;
  LT : string;
  GTE : string;
  GT : string;
  EQ : string
}.

Definition zero : t :=
  mk EmptyString EmptyString EmptyString EmptyString EmptyString.

(** Modelled from the spec: the JSON object of a date range, from the
    struct tags of [DateRangeFilter]. *)
Definition marshal (r : t) : json :=
  JObj (Enc.omitempty (Enc.empty_string (LTE r)) "lte" (JStr (LTE r))
        ++ Enc.omitempty (Enc.empty_string (LT r)) "lt" (JStr (LT r))
        ++ Enc.omitempty (Enc.empty_string (GTE r)) "gte" (JStr (GTE r))
        ++ Enc.omitempty (Enc.empty_string (GT r)) "gt" (JStr (GT r))
        ++ Enc.omitempty (Enc.empty_string (EQ r)) "eq" (JStr (EQ r))).

End DateRangeFilter.


(** ** Objects and pointers

    An aggregate is an object of the store; a method with a pointer
    receiver reads and writes the object its receiver points to, and
    fails (the Go program panics) when the receiver points to no object. *)
Definition loc : Type := positive.

Section store.
Context {T : Type}.

Definition M (A : Type) : Type := gmap loc T -> option (A * gmap loc T).

Definition ret {A} (x : A) : M A := fun h => Some (x, h).

Definition bind {A B} (m : M A) (f : A -> M B) : M B :=
  fun h =>
    match m h with
    | None => None
    | Some (x, h') => f x h'
    end.

Definition panic {A} : M A := fun _ => None.

(** [*p] *)
Definition load (p : loc) : M T :=
  fun h =>
    match h !! p with
    | Some v => Some (v, h)
    | None => None
    end.

(** [*p = v] *)
Definition store (p : loc) (v : T) : M unit :=
  fun h =>
    match h !! p with
    | Some _ => Some (tt, <[p := v]> h)
    | None => None
    end.

(** [p.f = v], for the field that [set] writes *)
Definition assign (p : loc) (set : T -> T) : M unit :=
  bind (load p) (fun a => store p (set a)).

(** [&T{...}] *)
Definition new (v : T) : M loc :=
  fun h => let p := fresh (dom h) in Some (p, <[p := v]> h).

End store.

Arguments M : clear implicits.

Notation "'do' x <- m ; k" := (bind m (fun x => k))
  (at level 10, x name, m at level 100, k at level 200).
Notation "m ;; k" := (bind m (fun _ => k))
  (at level 100, k at level 200, right associativity).

(** ** Archives filters *)
Module archivesFilters.

Record t : Type := mk {
  Agents : option propertyFilterType.t;
  GroupIDs : slice N;
  From : string;
  To : string;
  Properties : PropertiesFilters;
  Tags : option propertyFilterType.t;
  Sales : option propertyFilterType.t;
  Goals : option propertyFilterType.t;
  Surveys : slice SurveyFilter.t;
  ThreadIDs : slice string;
  Query : string;
  EventTypes : option eventTypesFilter.t
}.

Definition zero : t :=
  mk None None EmptyString EmptyString None None None None None None
     EmptyString None.

Definition set_Agents v (a : t) : t :=
  mk v (GroupIDs a) (From a) (To a) (Properties a) (Tags a) (Sales a)
     (Goals a) (Surveys a) (ThreadIDs a) (Query a) (EventTypes a).
Definition set_GroupIDs v (a : t) : t :=
  mk (Agents a) v (From a) (To a) (Properties a) (Tags a) (Sales a)
     (Goals a) (Surveys a) (ThreadIDs a) (Query a) (EventTypes a).
Definition set_From v (a : t) : t :=
  mk (Agents a) (GroupIDs a) v (To a) (Properties a) (Tags a) (Sales a)
     (Goals a) (Surveys a) (ThreadIDs a) (Query a) (EventTypes a).
Definition set_To v (a : t) : t :=
  mk (Agents a) (GroupIDs a) (From a) v (Properties a) (Tags a) (Sales a)
     (Goals a) (Surveys a) (ThreadIDs a) (Query a) (EventTypes a).
Definition set_Properties v (a : t) : t :=
  mk (Agents a) (GroupIDs a) (From a) (To a) v (Tags a) (Sales a)
     (Goals a) (Surveys a) (ThreadIDs a) (Query a) (EventTypes a).
Definition set_Tags v (a : t) : t :=
  mk (Agents a) (GroupIDs a) (From a) (To a) (Properties a) v (Sales a)
     (Goals a) (Surveys a) (ThreadIDs a) (Query a) (EventTypes a).
Definition set_Sales v (a : t) : t :=
  mk (Agents a) (GroupIDs a) (From a) (To a) (Properties a) (Tags a) v
     (Goals a) (Surveys a) (ThreadIDs a) (Query a) (EventTypes a).
Definition set_Goals v (a : t) : t :=
  mk (Agents a) (GroupIDs a) (From a) (To a) (Properties a) (Tags a)
     (Sales a) v (Surveys a) (ThreadIDs a) (Query a) (EventTypes a).
Definition set_Surveys v (a : t) : t :=
  mk (Agents a) (GroupIDs a) (From a) (To a) (Properties a) (Tags a)
     (Sales a) (Goals a) v (ThreadIDs a) (Query a) (EventTypes a).
Definition set_ThreadIDs v (a : t) : t :=
  mk (Agents a) (GroupIDs a) (From a) (To a) (Properties a) (Tags a)
     (Sales a) (Goals a) (Surveys a) v (Query a) (EventTypes a).
Definition set_Query v (a : t) : t :=
  mk (Agents a) (GroupIDs a) (From a) (To a) (Properties a) (Tags a)
     (Sales a) (Goals a) (Surveys a) (ThreadIDs a) v (EventTypes a).
Definition set_EventTypes v (a : t) : t :=
  mk (Agents a) (GroupIDs a) (From a) (To a) (Properties a) (Tags a)
     (Sales a) (Goals a) (Surveys a) (ThreadIDs a) (Query a) v.

(** Modelled from the spec: the JSON object of the aggregate, from the
    struct tags of [archivesFilters]. *)
Definition marshal (a : t) : json :=
  JObj (Enc.omitempty (Enc.empty_ptr (Agents a)) "agents"
          (Enc.ptr propertyFilterType.marshal (Agents a))
        ++ Enc.omitempty (Enc.empty_slice (GroupIDs a)) "group_ids"
          (Enc.arr Enc.uint (GroupIDs a))
        ++ Enc.omitempty (Enc.empty_string (From a)) "from"
          (JStr (From a))
        ++ Enc.omitempty (Enc.empty_string (To a)) "to"
          (JStr (To a))
        ++ Enc.omitempty (Enc.empty_map (Properties a)) "properties"
          (marshal_PropertiesFilters (Properties a))
        ++ Enc.omitempty (Enc.empty_ptr (Tags a)) "tags"
          (Enc.ptr propertyFilterType.marshal (Tags a))
        ++ Enc.omitempty (Enc.empty_ptr (Sales a)) "sales"
          (Enc.ptr propertyFilterType.marshal (Sales a))
        ++ Enc.omitempty (Enc.empty_ptr (Goals a)) "goals"
          (Enc.ptr propertyFilterType.marshal (Goals a))
        ++ Enc.omitempty (Enc.empty_slice (Surveys a)) "surveys"
          (Enc.arr SurveyFilter.marshal (Surveys a))
        ++ Enc.omitempty (Enc.empty_slice (ThreadIDs a)) "thread_ids"
          (Enc.arr JStr (ThreadIDs a))
        ++ Enc.omitempty (Enc.empty_string (Query a)) "query"
          (JStr (Query a))
        ++ Enc.omitempty (Enc.empty_ptr (EventTypes a)) "event_types"
          (Enc.ptr eventTypesFilter.marshal (EventTypes a))).

Definition ByAgents (af : loc) (includes : bool) (vals : slice any)
    (requireEveryValue : bool) : M t loc :=
  assign af (set_Agents
               (Some (NewPropertyFilterType includes vals requireEveryValue)));;
  ret af.

Definition ByGroups (af : loc) (groupIDs : slice N) : M t loc :=
  assign af (set_GroupIDs groupIDs);;
  ret af.

Definition ByThreads (af : loc) (threadIDs : slice string) : M t loc :=
  store af (set_ThreadIDs threadIDs zero);;
  ret af.

Definition ByQuery (af : loc) (query : string) : M t loc :=
  assign af (set_Query query);;
  ret af.

Definition FromDate (af : loc) (date : string) : M t loc :=
  assign af (set_From date);;
  ret af.

Definition ToDate (af : loc) (date : string) : M t loc :=
  assign af (set_To date);;
  ret af.

Definition ByProperties (af : loc) (propsFilters : PropertiesFilters)
    : M t loc :=
  assign af (set_Properties propsFilters);;
  ret af.

Definition BySurveys (af : loc) (surveyFilters : slice SurveyFilter.t)
    : M t loc :=
  assign af (set_Surveys surveyFilters);;
  ret af.

Definition ByTags (af : loc) (includes : bool) (vals : slice any)
    (requireEveryValue : bool) : M t loc :=
  assign af (set_Tags
               (Some (NewPropertyFilterType includes vals requireEveryValue)));;
  ret af.

Definition BySales (af : loc) (includes : bool) (vals : slice any)
    (requireEveryValue : bool) : M t loc :=
  assign af (set_Sales
               (Some (NewPropertyFilterType includes vals requireEveryValue)));;
  ret af.

Definition ByGoals (af : loc) (includes : bool) (vals : slice any)
    (requireEveryValue : bool) : M t loc :=
  assign af (set_Goals
               (Some (NewPropertyFilterType includes vals requireEveryValue)));;
  ret af.

(** The last assignment goes through the pointer stored just before. *)
Definition ByEventTypes (af : loc) (includes : bool) (vals : slice string)
    (requireEveryValue : bool) : M t loc :=
  (if includes
   then assign af (set_EventTypes (Some (eventTypesFilter.mk vals None None)))
   else assign af (set_EventTypes
                     (Some (eventTypesFilter.mk None vals None))));;
  do a <- load af;
  match EventTypes a with
  | None => panic
  | Some e =>
    store af (set_EventTypes
                (Some (eventTypesFilter.set_RequireEveryValue
                         (Some requireEveryValue) e)) a)
  end;;
  ret af.

(** Modelled from the spec: [ToJSON], the JSON text of the aggregate a
    pointer refers to. *)
Definition ToJSON (af : loc) : M t string :=
  do a <- load af;
  ret (Text.encode (marshal a)).

(** The fields of the aggregate, and agreement of two aggregates on a
    field. *)
Inductive field : Type :=
| FAgents
| FGroupIDs
| FFrom
| FTo
| FProperties
| FTags
| FSales
| FGoals
| FSurveys
| FThreadIDs
| FQuery
| FEventTypes.

Definition same (f : field) (a b : t) : Prop :=
  match f with
  | FAgents => Agents a = Agents b
  | FGroupIDs => GroupIDs a = GroupIDs b
  | FFrom => From a = From b
  | FTo => To a = To b
  | FProperties => Properties a = Properties b
  | FTags => Tags a = Tags b
  | FSales => Sales a = Sales b
  | FGoals => Goals a = Goals b
  | FSurveys => Surveys a = Surveys b
  | FThreadIDs => ThreadIDs a = ThreadIDs b
  | FQuery => Query a = Query b
  | FEventTypes => EventTypes a = EventTypes b
  end.

(** A call of a chained mutator, with its arguments. *)
Inductive mutator : Type :=
| CallByAgents (includes : bool) (vals : slice any) (requireEveryValue : bool)
| CallByGroups (groupIDs : slice N)
| CallByThreads (threadIDs : slice string)
| CallByQuery (query : string)
| CallFromDate (date : string)
| CallToDate (date : string)
| CallByProperties (propsFilters : PropertiesFilters)
| CallBySurveys (surveyFilters : slice SurveyFilter.t)
| CallByTags (includes : bool) (vals : slice any) (requireEveryValue : bool)
| CallBySales (includes : bool) (vals : slice any) (requireEveryValue : bool)
| CallByGoals (includes : bool) (vals : slice any) (requireEveryValue : bool)
| CallByEventTypes (includes : bool) (vals : slice string)
    (requireEveryValue : bool).

Definition call (m : mutator) (af : loc) : M t loc :=
  match m with
  | CallByAgents includes vals requireEveryValue =>
    ByAgents af includes vals requireEveryValue
  | CallByGroups groupIDs =>
    ByGroups af groupIDs
  | CallByThreads threadIDs =>
    ByThreads af threadIDs
  | CallByQuery query =>
    ByQuery af query
  | CallFromDate date =>
    FromDate af date
  | CallToDate date =>
    ToDate af date
  | CallByProperties propsFilters =>
    ByProperties af propsFilters
  | CallBySurveys surveyFilters =>
    BySurveys af surveyFilters
  | CallByTags includes vals requireEveryValue =>
    ByTags af includes vals requireEveryValue
  | CallBySales includes vals requireEveryValue =>
    BySales af includes vals requireEveryValue
  | CallByGoals includes vals requireEveryValue =>
    ByGoals af includes vals requireEveryValue
  | CallByEventTypes includes vals requireEveryValue =>
    ByEventTypes af includes vals requireEveryValue
  end.

(** The field a mutator corresponds to. *)
Definition target (m : mutator) : field :=
  match m with
  | CallByAgents _ _ _ => FAgents
  | CallByGroups _ => FGroupIDs
  | CallByThreads _ => FThreadIDs
  | CallByQuery _ => FQuery
  | CallFromDate _ => FFrom
  | CallToDate _ => FTo
  | CallByProperties _ => FProperties
  | CallBySurveys _ => FSurveys
  | CallByTags _ _ _ => FTags
  | CallBySales _ _ _ => FSales
  | CallByGoals _ _ _ => FGoals
  | CallByEventTypes _ _ _ => FEventTypes
  end.

(** That field holds what the call assigns to it. *)
Definition written (m : mutator) (a : t) : Prop :=
  match m with
  | CallByAgents includes vals requireEveryValue =>
    Agents a = Some (NewPropertyFilterType includes vals requireEveryValue)
  | CallByGroups groupIDs =>
    GroupIDs a = groupIDs
  | CallByThreads threadIDs =>
    ThreadIDs a = threadIDs
  | CallByQuery query =>
    Query a = query
  | CallFromDate date =>
    From a = date
  | CallToDate date =>
    To a = date
  | CallByProperties propsFilters =>
    Properties a = propsFilters
  | CallBySurveys surveyFilters =>
    Surveys a = surveyFilters
  | CallByTags includes vals requireEveryValue =>
    Tags a = Some (NewPropertyFilterType includes vals requireEveryValue)
  | CallBySales includes vals requireEveryValue =>
    Sales a = Some (NewPropertyFilterType includes vals requireEveryValue)
  | CallByGoals includes vals requireEveryValue =>
    Goals a = Some (NewPropertyFilterType includes vals requireEveryValue)
  | CallByEventTypes includes vals requireEveryValue =>
    EventTypes a = Some (if includes
            then eventTypesFilter.mk vals None (Some requireEveryValue)
            else eventTypesFilter.mk None vals (Some requireEveryValue))
  end.

(** The mutators that replace the whole aggregate. *)
Definition resets (m : mutator) : bool :=
  match m with
  | CallByThreads _ => true
  | _ => false
  end.

End archivesFilters.

Definition NewArchivesFilters : M archivesFilters.t loc :=
  new archivesFilters.zero.

(** ** Customers filters *)
Module customersFilters.

Record t : Type := mk {
  Country : option stringFilter.t;
  Email : option stringFilter.t;
  Name : option stringFilter.t;
  CustomerID : option stringFilter.t;
  ChatGroupIDs : option integerFilter.t;
  ChatsCount : option RangeFilter.t;
  ThreadsCount : option RangeFilter.t;
  VisitsCount : option RangeFilter.t;
  CreatedAt : option DateRangeFilter.t;
  AgentLastEventCreatedAt : option DateRangeFilter.t;
  CustomerLastEventCreatedAt : option DateRangeFilter.t;
  IncludeCustomersWithoutChats : option bool
}.

Definition zero : t :=
  mk None None None None None None None None None None None None.

Definition set_Country v (c : t) : t :=
  mk v (Email c) (Name c) (CustomerID c) (ChatGroupIDs c) (ChatsCount c)
     (ThreadsCount c) (VisitsCount c) (CreatedAt c)
     (AgentLastEventCreatedAt c) (CustomerLastEventCreatedAt c)
     (IncludeCustomersWithoutChats c).
Definition set_Email v (c : t) : t :=
  mk (Country c) v (Name c) (CustomerID c) (ChatGroupIDs c) (ChatsCount c)
     (ThreadsCount c) (VisitsCount c) (CreatedAt c)
     (AgentLastEventCreatedAt c) (CustomerLastEventCreatedAt c)
     (IncludeCustomersWithoutChats c).
Definition set_Name v (c : t) : t :=
  mk (Country c) (Email c) v (CustomerID c) (ChatGroupIDs c)
     (ChatsCount c) (ThreadsCount c) (VisitsCount c) (CreatedAt c)
     (AgentLastEventCreatedAt c) (CustomerLastEventCreatedAt c)
     (IncludeCustomersWithoutChats c).
Definition set_CustomerID v (c : t) : t :=
  mk (Country c) (Email c) (Name c) v (ChatGroupIDs c) (ChatsCount c)
     (ThreadsCount c) (VisitsCount c) (CreatedAt c)
     (AgentLastEventCreatedAt c) (CustomerLastEventCreatedAt c)
     (IncludeCustomersWithoutChats c).
Definition set_ChatGroupIDs v (c : t) : t :=
  mk (Country c) (Email c) (Name c) (CustomerID c) v (ChatsCount c)
     (ThreadsCount c) (VisitsCount c) (CreatedAt c)
     (AgentLastEventCreatedAt c) (CustomerLastEventCreatedAt c)
     (IncludeCustomersWithoutChats c).
Definition set_ChatsCount v (c : t) : t :=
  mk (Country c) (Email c) (Name c) (CustomerID c) (ChatGroupIDs c) v
     (ThreadsCount c) (VisitsCount c) (CreatedAt c)
     (AgentLastEventCreatedAt c) (CustomerLastEventCreatedAt c)
     (IncludeCustomersWithoutChats c).
Definition set_ThreadsCount v (c : t) : t :=
  mk (Country c) (Email c) (Name c) (CustomerID c) (ChatGroupIDs c)
     (ChatsCount c) v (VisitsCount c) (CreatedAt c)
     (AgentLastEventCreatedAt c) (CustomerLastEventCreatedAt c)
     (IncludeCustomersWithoutChats c).
Definition set_VisitsCount v (c : t) : t :=
  mk (Country c) (Email c) (Name c) (CustomerID c) (ChatGroupIDs c)
     (ChatsCount c) (ThreadsCount c) v (CreatedAt c)
     (AgentLastEventCreatedAt c) (CustomerLastEventCreatedAt c)
     (IncludeCustomersWithoutChats c).
Definition set_CreatedAt v (c : t) : t :=
  mk (Country c) (Email c) (Name c) (CustomerID c) (ChatGroupIDs c)
     (ChatsCount c) (ThreadsCount c) (VisitsCount c) v
     (AgentLastEventCreatedAt c) (CustomerLastEventCreatedAt c)
     (IncludeCustomersWithoutChats c).
Definition set_AgentLastEventCreatedAt v (c : t) : t :=
  mk (Country c) (Email c) (Name c) (CustomerID c) (ChatGroupIDs c)
     (ChatsCount c) (ThreadsCount c) (VisitsCount c) (CreatedAt c) v
     (CustomerLastEventCreatedAt c) (IncludeCustomersWithoutChats c).
Definition set_CustomerLastEventCreatedAt v (c : t) : t :=
  mk (Country c) (Email c) (Name c) (CustomerID c) (ChatGroupIDs c)
     (ChatsCount c) (ThreadsCount c) (VisitsCount c) (CreatedAt c)
     (AgentLastEventCreatedAt c) v (IncludeCustomersWithoutChats c).
Definition set_IncludeCustomersWithoutChats v (c : t) : t :=
  mk (Country c) (Email c) (Name c) (CustomerID c) (ChatGroupIDs c)
     (ChatsCount c) (ThreadsCount c) (VisitsCount c) (CreatedAt c)
     (AgentLastEventCreatedAt c) (CustomerLastEventCreatedAt c) v.

(** Modelled from the spec: the JSON object of the aggregate, from the
    struct tags of [customersFilters]. *)
Definition marshal (c : t) : json :=
  JObj (Enc.omitempty (Enc.empty_ptr (Country c)) "country"
          (Enc.ptr stringFilter.marshal (Country c))
        ++ Enc.omitempty (Enc.empty_ptr (Email c)) "email"
          (Enc.ptr stringFilter.marshal (Email c))
        ++ Enc.omitempty (Enc.empty_ptr (Name c)) "name"
          (Enc.ptr stringFilter.marshal (Name c))
        ++ Enc.omitempty (Enc.empty_ptr (CustomerID c)) "customer_id"
          (Enc.ptr stringFilter.marshal (CustomerID c))
        ++ Enc.omitempty (Enc.empty_ptr (ChatGroupIDs c)) "chat_group_ids"
          (Enc.ptr integerFilter.marshal (ChatGroupIDs c))
        ++ Enc.omitempty (Enc.empty_ptr (ChatsCount c)) "chats_count"
          (Enc.ptr RangeFilter.marshal (ChatsCount c))
        ++ Enc.omitempty (Enc.empty_ptr (ThreadsCount c)) "threads_count"
          (Enc.ptr RangeFilter.marshal (ThreadsCount c))
        ++ Enc.omitempty (Enc.empty_ptr (VisitsCount c)) "visits_count"
          (Enc.ptr RangeFilter.marshal (VisitsCount c))
        ++ Enc.omitempty (Enc.empty_ptr (CreatedAt c)) "created_at"
          (Enc.ptr DateRangeFilter.marshal (CreatedAt c))
        ++ Enc.omitempty (Enc.empty_ptr (AgentLastEventCreatedAt c))
          "agent_last_event_created_at"
          (Enc.ptr DateRangeFilter.marshal (AgentLastEventCreatedAt c))
        ++ Enc.omitempty (Enc.empty_ptr (CustomerLastEventCreatedAt c))
          "customer_last_event_created_at"
          (Enc.ptr DateRangeFilter.marshal (CustomerLastEventCreatedAt c))
        ++ Enc.omitempty (Enc.empty_ptr (IncludeCustomersWithoutChats c))
          "include_customers_without_chats"
          (Enc.ptr JBool (IncludeCustomersWithoutChats c))).

Definition ByCountry (cf : loc) (values : slice string) (inclusive : bool)
    : M t loc :=
  assign cf (set_Country (Some (NewStringFilter values inclusive)));;
  ret cf.

Definition ByEmail (cf : loc) (values : slice string) (inclusive : bool)
    : M t loc :=
  assign cf (set_Email (Some (NewStringFilter values inclusive)));;
  ret cf.

Definition ByName (cf : loc) (values : slice string) (inclusive : bool)
    : M t loc :=
  assign cf (set_Name (Some (NewStringFilter values inclusive)));;
  ret cf.

Definition ByID (cf : loc) (values : slice string) (inclusive : bool)
    : M t loc :=
  assign cf (set_CustomerID (Some (NewStringFilter values inclusive)));;
  ret cf.

Definition ByChatGroupIDs (cf : loc) (values : slice Z) (inclusive : bool)
    : M t loc :=
  assign cf (set_ChatGroupIDs (Some (NewIntegerFilter values inclusive)));;
  ret cf.

Definition ByChatsCount (cf : loc) (ranges : option RangeFilter.t)
    : M t loc :=
  assign cf (set_ChatsCount ranges);;
  ret cf.

Definition ByThreadsCount (cf : loc) (ranges : option RangeFilter.t)
    : M t loc :=
  assign cf (set_ThreadsCount ranges);;
  ret cf.

Definition ByVisitsCount (cf : loc) (ranges : option RangeFilter.t)
    : M t loc :=
  assign cf (set_VisitsCount ranges);;
  ret cf.

Definition ByCreationTime (cf : loc) (timeRange : option DateRangeFilter.t)
    : M t loc :=
  assign cf (set_CreatedAt timeRange);;
  ret cf.

Definition ByAgentsLastActivity (cf : loc)
    (timeRange : option DateRangeFilter.t)
    : M t loc :=
  assign cf (set_AgentLastEventCreatedAt timeRange);;
  ret cf.

Definition ByCustomersLastActivity (cf : loc)
    (timeRange : option DateRangeFilter.t)
    : M t loc :=
  assign cf (set_CustomerLastEventCreatedAt timeRange);;
  ret cf.

Definition WithIncludeCustomersWithoutChats (cf : loc) (value : bool)
    : M t loc :=
  assign cf (set_IncludeCustomersWithoutChats (Some value));;
  ret cf.

(** Modelled from the spec: [ToJSON], the JSON text of the aggregate a
    pointer refers to. *)
Definition ToJSON (cf : loc) : M t string :=
  do a <- load cf;
  ret (Text.encode (marshal a)).

(** The fields of the aggregate, and agreement of two aggregates on a
    field. *)
Inductive field : Type :=
| FCountry
| FEmail
| FName
| FCustomerID
| FChatGroupIDs
| FChatsCount
| FThreadsCount
| FVisitsCount
| FCreatedAt
| FAgentLastEventCreatedAt
| FCustomerLastEventCreatedAt
| FIncludeCustomersWithoutChats.

Definition same (f : field) (a b : t) : Prop :=
  match f with
  | FCountry => Country a = Country b
  | FEmail => Email a = Email b
  | FName => Name a = Name b
  | FCustomerID => CustomerID a = CustomerID b
  | FChatGroupIDs => ChatGroupIDs a = ChatGroupIDs b
  | FChatsCount => ChatsCount a = ChatsCount b
  | FThreadsCount => ThreadsCount a = ThreadsCount b
  | FVisitsCount => VisitsCount a = VisitsCount b
  | FCreatedAt => CreatedAt a = CreatedAt b
  | FAgentLastEventCreatedAt =>
    AgentLastEventCreatedAt a =
    AgentLastEventCreatedAt b
  | FCustomerLastEventCreatedAt =>
    CustomerLastEventCreatedAt a =
    CustomerLastEventCreatedAt b
  | FIncludeCustomersWithoutChats =>
    IncludeCustomersWithoutChats a =
    IncludeCustomersWithoutChats b
  end.

(** A call of a chained mutator, with its arguments. *)
Inductive mutator : Type :=
| CallByCountry (values : slice string) (inclusive : bool)
| CallByEmail (values : slice string) (inclusive : bool)
| CallByName (values : slice string) (inclusive : bool)
| CallByID (values : slice string) (inclusive : bool)
| CallByChatGroupIDs (values : slice Z) (inclusive : bool)
| CallByChatsCount (ranges : option RangeFilter.t)
| CallByThreadsCount (ranges : option RangeFilter.t)
| CallByVisitsCount (ranges : option RangeFilter.t)
| CallByCreationTime (timeRange : option DateRangeFilter.t)
| CallByAgentsLastActivity (timeRange : option DateRangeFilter.t)
| CallByCustomersLastActivity (timeRange : option DateRangeFilter.t)
| CallWithIncludeCustomersWithoutChats (value : bool).

Definition call (m : mutator) (cf : loc) : M t loc :=
  match m with
  | CallByCountry values inclusive =>
    ByCountry cf values inclusive
  | CallByEmail values inclusive =>
    ByEmail cf values inclusive
  | CallByName values inclusive =>
    ByName cf values inclusive
  | CallByID values inclusive =>
    ByID cf values inclusive
  | CallByChatGroupIDs values inclusive =>
    ByChatGroupIDs cf values inclusive
  | CallByChatsCount ranges =>
    ByChatsCount cf ranges
  | CallByThreadsCount ranges =>
    ByThreadsCount cf ranges
  | CallByVisitsCount ranges =>
    ByVisitsCount cf ranges
  | CallByCreationTime timeRange =>
    ByCreationTime cf timeRange
  | CallByAgentsLastActivity timeRange =>
    ByAgentsLastActivity cf timeRange
  | CallByCustomersLastActivity timeRange =>
    ByCustomersLastActivity cf timeRange
  | CallWithIncludeCustomersWithoutChats value =>
    WithIncludeCustomersWithoutChats cf value
  end.

(** The field a mutator corresponds to. *)
Definition target (m : mutator) : field :=
  match m with
  | CallByCountry _ _ => FCountry
  | CallByEmail _ _ => FEmail
  | CallByName _ _ => FName
  | CallByID _ _ => FCustomerID
  | CallByChatGroupIDs _ _ => FChatGroupIDs
  | CallByChatsCount _ => FChatsCount
  | CallByThreadsCount _ => FThreadsCount
  | CallByVisitsCount _ => FVisitsCount
  | CallByCreationTime _ => FCreatedAt
  | CallByAgentsLastActivity _ => FAgentLastEventCreatedAt
  | CallByCustomersLastActivity _ => FCustomerLastEventCreatedAt
  | CallWithIncludeCustomersWithoutChats _ => FIncludeCustomersWithoutChats
  end.

(** That field holds what the call assigns to it. *)
Definition written (m : mutator) (a : t) : Prop :=
  match m with
  | CallByCountry values inclusive =>
    Country a = Some (NewStringFilter values inclusive)
  | CallByEmail values inclusive =>
    Email a = Some (NewStringFilter values inclusive)
  | CallByName values inclusive =>
    Name a = Some (NewStringFilter values inclusive)
  | CallByID values inclusive =>
    CustomerID a = Some (NewStringFilter values inclusive)
  | CallByChatGroupIDs values inclusive =>
    ChatGroupIDs a = Some (NewIntegerFilter values inclusive)
  | CallByChatsCount ranges =>
    ChatsCount a = ranges
  | CallByThreadsCount ranges =>
    ThreadsCount a = ranges
  | CallByVisitsCount ranges =>
    VisitsCount a = ranges
  | CallByCreationTime timeRange =>
    CreatedAt a = timeRange
  | CallByAgentsLastActivity timeRange =>
    AgentLastEventCreatedAt a = timeRange
  | CallByCustomersLastActivity timeRange =>
    CustomerLastEventCreatedAt a = timeRange
  | CallWithIncludeCustomersWithoutChats value =>
    IncludeCustomersWithoutChats a = Some value
  end.

(** The mutators that replace the whole aggregate. *)
Definition resets (m : mutator) : bool := false.

End customersFilters.

Definition NewCustomersFilters : M customersFilters.t loc :=
  new customersFilters.zero.

(** ** Chats filters *)
Module chatsFilters.

Record t : Type := mk {
  IncludeActive : bool;
  IncludeChatsWithoutThreads : bool;
  GroupIDs : slice N;
  Properties : PropertiesFilters
}.

Definition zero : t := mk false false None None.

Definition set_IncludeActive v (c : t) : t :=
  mk v (IncludeChatsWithoutThreads c) (GroupIDs c) (Properties c).
Definition set_IncludeChatsWithoutThreads v (c : t) : t :=
  mk (IncludeActive c) v (GroupIDs c) (Properties c).
Definition set_GroupIDs v (c : t) : t :=
  mk (IncludeActive c) (IncludeChatsWithoutThreads c) v (Properties c).
Definition set_Properties v (c : t) : t :=
  mk (IncludeActive c) (IncludeChatsWithoutThreads c) (GroupIDs c) v.

(** Modelled from the spec: the JSON object of the aggregate, from the
    struct tags of [chatsFilters]. *)
Definition marshal (c : t) : json :=
  JObj (Enc.omitempty (Enc.empty_bool (IncludeActive c)) "include_active"
          (JBool (IncludeActive c))
        ++ Enc.omitempty (Enc.empty_bool (IncludeChatsWithoutThreads c))
          "include_chats_without_threads"
          (JBool (IncludeChatsWithoutThreads c))
        ++ Enc.omitempty (Enc.empty_slice (GroupIDs c)) "group_ids"
          (Enc.arr Enc.uint (GroupIDs c))
        ++ Enc.omitempty (Enc.empty_map (Properties c)) "properties"
          (marshal_PropertiesFilters (Properties c))).

Definition WithoutActiveChats (cf : loc) : M t loc :=
  assign cf (set_IncludeActive false);;
  ret cf.

Definition WithChatsWithoutThreads (cf : loc) : M t loc :=
  assign cf (set_IncludeChatsWithoutThreads true);;
  ret cf.

Definition ByGroups (cf : loc) (groupIDs : slice N) : M t loc :=
  assign cf (set_GroupIDs groupIDs);;
  ret cf.

Definition ByProperties (cf : loc) (propsFilters : PropertiesFilters)
    : M t loc :=
  assign cf (set_Properties propsFilters);;
  ret cf.

(** Modelled from the spec: [ToJSON], the JSON text of the aggregate a
    pointer refers to. *)
Definition ToJSON (cf : loc) : M t string :=
  do a <- load cf;
  ret (Text.encode (marshal a)).

(** The fields of the aggregate, and agreement of two aggregates on a
    field. *)
Inductive field : Type :=
| FIncludeActive
| FIncludeChatsWithoutThreads
| FGroupIDs
| FProperties.

Definition same (f : field) (a b : t) : Prop :=
  match f with
  | FIncludeActive => IncludeActive a = IncludeActive b
  | FIncludeChatsWithoutThreads =>
    IncludeChatsWithoutThreads a =
    IncludeChatsWithoutThreads b
  | FGroupIDs => GroupIDs a = GroupIDs b
  | FProperties => Properties a = Properties b
  end.

(** A call of a chained mutator, with its arguments. *)
Inductive mutator : Type :=
| CallWithoutActiveChats
| CallWithChatsWithoutThreads
| CallByGroups (groupIDs : slice N)
| CallByProperties (propsFilters : PropertiesFilters).

Definition call (m : mutator) (cf : loc) : M t loc :=
  match m with
  | CallWithoutActiveChats =>
    WithoutActiveChats cf
  | CallWithChatsWithoutThreads =>
    WithChatsWithoutThreads cf
  | CallByGroups groupIDs =>
    ByGroups cf groupIDs
  | CallByProperties propsFilters =>
    ByProperties cf propsFilters
  end.

(** The field a mutator corresponds to. *)
Definition target (m : mutator) : field :=
  match m with
  | CallWithoutActiveChats => FIncludeActive
  | CallWithChatsWithoutThreads => FIncludeChatsWithoutThreads
  | CallByGroups _ => FGroupIDs
  | CallByProperties _ => FProperties
  end.

(** That field holds what the call assigns to it. *)
Definition written (m : mutator) (a : t) : Prop :=
  match m with
  | CallWithoutActiveChats =>
    IncludeActive a = false
  | CallWithChatsWithoutThreads =>
    IncludeChatsWithoutThreads a = true
  | CallByGroups groupIDs =>
    GroupIDs a = groupIDs
  | CallByProperties propsFilters =>
    Properties a = propsFilters
  end.

(** The mutators that replace the whole aggregate. *)
Definition resets (m : mutator) : bool := false.

End chatsFilters.

(** By default the filters include also active chats. *)
Definition NewChatsFilters : M chatsFilters.t loc :=
  new (chatsFilters.set_IncludeActive true chatsFilters.zero).

(** ** Threads filters *)
Module threadsFilters.

Record t : Type := mk {
  From : string;
  To : string
}.

Definition zero : t := mk EmptyString EmptyString.

Definition set_From v (f : t) : t :=
  mk v (To f).
Definition set_To v (f : t) : t :=
  mk (From f) v.

(** Modelled from the spec: the JSON object of the aggregate, from the
    struct tags of [threadsFilters]. *)
Definition marshal (f : t) : json :=
  JObj (Enc.omitempty (Enc.empty_string (From f)) "from"
          (JStr (From f))
        ++ Enc.omitempty (Enc.empty_string (To f)) "to"
          (JStr (To f))).

Definition FromDate (tf : loc) (date : string) : M t loc :=
  assign tf (set_From date);;
  ret tf.

Definition ToDate (tf : loc) (date : string) : M t loc :=
  assign tf (set_To date);;
  ret tf.

(** Modelled from the spec: [ToJSON], the JSON text of the aggregate a
    pointer refers to. *)
Definition ToJSON (tf : loc) : M t string :=
  do a <- load tf;
  ret (Text.encode (marshal a)).

(** The fields of the aggregate, and agreement of two aggregates on a
    field. *)
Inductive field : Type :=
| FFrom
| FTo.

Definition same (f : field) (a b : t) : Prop :=
  match f with
  | FFrom => From a = From b
  | FTo => To a = To b
  end.

(** A call of a chained mutator, with its arguments. *)
Inductive mutator : Type :=
| CallFromDate (date : string)
| CallToDate (date : string).

Definition call (m : mutator) (tf : loc) : M t loc :=
  match m with
  | CallFromDate date =>
    FromDate tf date
  | CallToDate date =>
    ToDate tf date
  end.

(** The field a mutator corresponds to. *)
Definition target (m : mutator) : field :=
  match m with
  | CallFromDate _ => FFrom
  | CallToDate _ => FTo
  end.

(** That field holds what the call assigns to it. *)
Definition written (m : mutator) (a : t) : Prop :=
  match m with
  | CallFromDate date =>
    From a = date
  | CallToDate date =>
    To a = date
  end.

(** The mutators that replace the whole aggregate. *)
Definition resets (m : mutator) : bool := false.

End threadsFilters.

Definition NewThreadsFilters : M threadsFilters.t loc :=
  new threadsFilters.zero.

(** ** The four aggregates

    What the aggregates have in common: a constructor, chained mutators
    that take and return a pointer to the aggregate, and a JSON text. *)
Record aggregate : Type := Aggregate {
  state : Type;
  field : Type;
  mutator : Type;
  same : field -> state -> state -> Prop;
  create : M state loc;
  call : mutator -> loc -> M state loc;
  target : mutator -> field;
  written : mutator -> state -> Prop;
  resets : mutator -> bool;
  ToJSON : loc -> M state string
}.

Definition archives : aggregate :=
  Aggregate archivesFilters.t archivesFilters.field archivesFilters.mutator
    archivesFilters.same NewArchivesFilters archivesFilters.call
    archivesFilters.target archivesFilters.written archivesFilters.resets
    archivesFilters.ToJSON.

Definition customers : aggregate :=
  Aggregate customersFilters.t customersFilters.field customersFilters.mutator
    customersFilters.same NewCustomersFilters customersFilters.call
    customersFilters.target customersFilters.written customersFilters.resets
    customersFilters.ToJSON.

Definition chats : aggregate :=
  Aggregate chatsFilters.t chatsFilters.field chatsFilters.mutator
    chatsFilters.same NewChatsFilters chatsFilters.call
    chatsFilters.target chatsFilters.written chatsFilters.resets
    chatsFilters.ToJSON.

Definition threads : aggregate :=
  Aggregate threadsFilters.t threadsFilters.field threadsFilters.mutator
    threadsFilters.same NewThreadsFilters threadsFilters.call
    threadsFilters.target threadsFilters.written threadsFilters.resets
    threadsFilters.ToJSON.

Inductive kind : Type := Archives | Customers | Chats | Threads.

Definition aggregate_of (k : kind) : aggregate :=
  match k with
  | Archives => archives
  | Customers => customers
  | Chats => chats
  | Threads => threads
  end.

(** Text of a freshly constructed aggregate. *)
Definition fresh_text (k : kind) : M (state (aggregate_of k)) string :=
  do p <- create (aggregate_of k);
  ToJSON (aggregate_of k) p.

(** The value of a computation started in a given store. *)
Definition result {T A} (m : M T A) (h : gmap loc T) : option A :=
  fst <$> m h.

(** ** Bounds of the range filters *)
Inductive bound : Type := Blte | Blt | Bgte | Bgt | Beq.

Definition bound_key (b : bound) : string :=
  match b with
  | Blte => "lte"
  | Blt => "lt"
  | Bgte => "gte"
  | Bgt => "gt"
  | Beq => "eq"
  end.

Definition range_bound (b : bound) (r : RangeFilter.t) : Z :=
  match b with
  | Blte => RangeFilter.LTE r
  | Blt => RangeFilter.LT r
  | Bgte => RangeFilter.GTE r
  | Bgt => RangeFilter.GT r
  | Beq => RangeFilter.EQ r
  end.

Definition date_bound (b : bound) (r : DateRangeFilter.t) : string :=
  match b with
  | Blte => DateRangeFilter.LTE r
  | Blt => DateRangeFilter.LT r
  | Bgte => DateRangeFilter.GTE r
  | Bgt => DateRangeFilter.GT r
  | Beq => DateRangeFilter.EQ r
  end.

(** Keys of the customers aggregate that hold a numeric range, and the
    mutators that write them. *)
Inductive count : Type := ChatsCount | ThreadsCount | VisitsCount.

Definition count_key (c : count) : string :=
  match c with
  | ChatsCount => "chats_count"
  | ThreadsCount => "threads_count"
  | VisitsCount => "visits_count"
  end.

(** The range stored under a count key of the customers object. *)
Definition count_field (c : count) (cf : customersFilters.t)
    : option RangeFilter.t :=
  match c with
  | ChatsCount => customersFilters.ChatsCount cf
  | ThreadsCount => customersFilters.ThreadsCount cf
  | VisitsCount => customersFilters.VisitsCount cf
  end.

Definition by_count (c : count) (cf : loc) (ranges : option RangeFilter.t)
    : M customersFilters.t loc :=
  match c with
  | ChatsCount => customersFilters.ByChatsCount cf ranges
  | ThreadsCount => customersFilters.ByThreadsCount cf ranges
  | VisitsCount => customersFilters.ByVisitsCount cf ranges
  end.

(** ** Sample values and programs *)

(** An archives aggregate with every field populated. *)
Definition full_archives : archivesFilters.t :=
  archivesFilters.mk
    (Some (NewPropertyFilterType true (Some [JStr "a1"]) false))
    (Some [1%N; 2%N]) "2020-01-01" "2020-12-31"
    (Some {[ "ns" := Some {[ "p" := Some (NewPropertyFilterType true None false) ]} ]})
    (Some (NewPropertyFilterType false (Some [JStr "spam"]) true))
    (Some (NewPropertyFilterType true None false))
    (Some (NewPropertyFilterType false None false))
    (Some [SurveyFilter.mk "pre_chat" "7"])
    (Some ["T0"]) "hello"
    (Some (eventTypesFilter.mk (Some ["message"]) None (Some true))).

(** [NewArchivesFilters().ByGroups([]uint{1,2}).FromDate("2020-01-01")],
    then its JSON text. *)
Definition groups_from_example : M archivesFilters.t string :=
  do af <- NewArchivesFilters;
  do af <- archivesFilters.ByGroups af (Some [1%N; 2%N]);
  do af <- archivesFilters.FromDate af "2020-01-01";
  archivesFilters.ToJSON af.

(** [NewChatsFilters().WithoutActiveChats()], then its JSON text. *)
Definition without_active_example : M chatsFilters.t string :=
  do cf <- NewChatsFilters;
  do cf <- chatsFilters.WithoutActiveChats cf;
  chatsFilters.ToJSON cf.

(** [NewArchivesFilters().ByThreads([]string{"T1"}).ByQuery("hello")],
    then its JSON text. *)
Definition threads_query_example : M archivesFilters.t string :=
  do af <- NewArchivesFilters;
  do af <- archivesFilters.ByThreads af (Some ["T1"]);
  do af <- archivesFilters.ByQuery af "hello";
  archivesFilters.ToJSON af.

(** [NewCustomersFilters().ByChatsCount(ranges)], then its JSON document. *)
Definition chats_count_example (ranges : option RangeFilter.t)
    : M customersFilters.t json :=
  do cf <- NewCustomersFilters;
  do cf <- customersFilters.ByChatsCount cf ranges;
  do c <- load cf;
  ret (customersFilters.marshal c).

(** ** Chains of calls *)

(** [p.m1(...).m2(...)...]: each mutator is called on the pointer the
    previous one returned. *)
Fixpoint chain (g : aggregate) (ms : list (mutator g)) (p : loc)
    : M (state g) loc :=
  match ms with
  | [] => ret p
  | m :: ms' => do p' <- call g m p; chain g ms' p'
  end.

(** The aggregate a constructor allocates. *)
Definition initial (k : kind) : state (aggregate_of k) :=
  match k with
  | Archives => archivesFilters.zero
  | Customers => customersFilters.zero
  | Chats => chatsFilters.mk true false None None
  | Threads => threadsFilters.zero
  end.

(** What a call makes of the aggregate its receiver points to; the
    lemma [call_effect] below relates it to the methods. *)
Definition archives_effect (m : archivesFilters.mutator)
    (a : archivesFilters.t) : archivesFilters.t :=
  match m with
  | archivesFilters.CallByAgents i v r =>
    archivesFilters.set_Agents (Some (NewPropertyFilterType i v r)) a
  | archivesFilters.CallByGroups g => archivesFilters.set_GroupIDs g a
  | archivesFilters.CallByThreads t =>
    archivesFilters.set_ThreadIDs t archivesFilters.zero
  | archivesFilters.CallByQuery q => archivesFilters.set_Query q a
  | archivesFilters.CallFromDate d => archivesFilters.set_From d a
  | archivesFilters.CallToDate d => archivesFilters.set_To d a
  | archivesFilters.CallByProperties f => archivesFilters.set_Properties f a
  | archivesFilters.CallBySurveys f => archivesFilters.set_Surveys f a
  | archivesFilters.CallByTags i v r =>
    archivesFilters.set_Tags (Some (NewPropertyFilterType i v r)) a
  | archivesFilters.CallBySales i v r =>
    archivesFilters.set_Sales (Some (NewPropertyFilterType i v r)) a
  | archivesFilters.CallByGoals i v r =>
    archivesFilters.set_Goals (Some (NewPropertyFilterType i v r)) a
  | archivesFilters.CallByEventTypes i v r =>
    archivesFilters.set_EventTypes
      (Some (if i then eventTypesFilter.mk v None (Some r)
             else eventTypesFilter.mk None v (Some r))) a
  end.

Definition customers_effect (m : customersFilters.mutator)
    (c : customersFilters.t) : customersFilters.t :=
  match m with
  | customersFilters.CallByCountry v i =>
    customersFilters.set_Country (Some (NewStringFilter v i)) c
  | customersFilters.CallByEmail v i =>
    customersFilters.set_Email (Some (NewStringFilter v i)) c
  | customersFilters.CallByName v i =>
    customersFilters.set_Name (Some (NewStringFilter v i)) c
  | customersFilters.CallByID v i =>
    customersFilters.set_CustomerID (Some (NewStringFilter v i)) c
  | customersFilters.CallByChatGroupIDs v i =>
    customersFilters.set_ChatGroupIDs (Some (NewIntegerFilter v i)) c
  | customersFilters.CallByChatsCount r => customersFilters.set_ChatsCount r c
  | customersFilters.CallByThreadsCount r =>
    customersFilters.set_ThreadsCount r c
  | customersFilters.CallByVisitsCount r =>
    customersFilters.set_VisitsCount r c
  | customersFilters.CallByCreationTime r => customersFilters.set_CreatedAt r c
  | customersFilters.CallByAgentsLastActivity r =>
    customersFilters.set_AgentLastEventCreatedAt r c
  | customersFilters.CallByCustomersLastActivity r =>
    customersFilters.set_CustomerLastEventCreatedAt r c
  | customersFilters.CallWithIncludeCustomersWithoutChats v =>
    customersFilters.set_IncludeCustomersWithoutChats (Some v) c
  end.

Definition chats_effect (m : chatsFilters.mutator) (c : chatsFilters.t)
    : chatsFilters.t :=
  match m with
  | chatsFilters.CallWithoutActiveChats =>
    chatsFilters.set_IncludeActive false c
  | chatsFilters.CallWithChatsWithoutThreads =>
    chatsFilters.set_IncludeChatsWithoutThreads true c
  | chatsFilters.CallByGroups g => chatsFilters.set_GroupIDs g c
  | chatsFilters.CallByProperties f => chatsFilters.set_Properties f c
  end.

Definition threads_effect (m : threadsFilters.mutator) (f : threadsFilters.t)
    : threadsFilters.t :=
  match m with
  | threadsFilters.CallFromDate d => threadsFilters.set_From d f
  | threadsFilters.CallToDate d => threadsFilters.set_To d f
  end.

Definition effect (k : kind)
    : mutator (aggregate_of k) -> state (aggregate_of k)
      -> state (aggregate_of k) :=
  match k with
  | Archives => archives_effect
  | Customers => customers_effect
  | Chats => chats_effect
  | Threads => threads_effect
  end.

(** ** Shape of the value objects the constructors build *)

(** A property filter is an existence check alone, or one value set with
    the require-every flag. *)
Definition pft_shape (f : propertyFilterType.t) : bool :=
  match propertyFilterType.Exists f with
  | Some _ =>
    isnil (propertyFilterType.Values f)
    && isnil (propertyFilterType.ExcludeValues f)
    && isnil (propertyFilterType.RequireEveryValue f)
  | None =>
    negb (isnil (propertyFilterType.RequireEveryValue f))
    && xorb (isnil (propertyFilterType.Values f))
            (isnil (propertyFilterType.ExcludeValues f))
  end.

(** An event-type filter has the require-every flag and at most one
    value set. *)
Definition evt_shape (e : eventTypesFilter.t) : bool :=
  negb (isnil (eventTypesFilter.RequireEveryValue e))
  && (isnil (eventTypesFilter.Values e)
      || isnil (eventTypesFilter.ExcludeValues e)).

Definition str_shape (f : stringFilter.t) : bool :=
  isnil (stringFilter.Values f) || isnil (stringFilter.ExcludeValues f).

Definition int_shape (f : integerFilter.t) : bool :=
  isnil (integerFilter.Values f) || isnil (integerFilter.ExcludeValues f).

(** A nil pointer has every shape. *)
Definition nil_or {A} (shape : A -> bool) (p : option A) : bool :=
  match p with
  | None => true
  | Some x => shape x
  end.

Definition archives_shape (a : archivesFilters.t) : bool :=
  nil_or pft_shape (archivesFilters.Agents a)
  && nil_or pft_shape (archivesFilters.Tags a)
  && nil_or pft_shape (archivesFilters.Sales a)
  && nil_or pft_shape (archivesFilters.Goals a)
  && nil_or evt_shape (archivesFilters.EventTypes a).

Definition customers_shape (c : customersFilters.t) : bool :=
  nil_or str_shape (customersFilters.Country c)
  && nil_or str_shape (customersFilters.Email c)
  && nil_or str_shape (customersFilters.Name c)
  && nil_or str_shape (customersFilters.CustomerID c)
  && nil_or int_shape (customersFilters.ChatGroupIDs c).

(** ** Keys of the payloads *)

Definition keys (j : json) : list string :=
  match j with
  | JObj fs => fst <$> fs
  | _ => []
  end.

Definition archives_keys : list string :=
  ["agents"; "group_ids"; "from"; "to"; "properties"; "tags"; "sales";
   "goals"; "surveys"; "thread_ids"; "query"; "event_types"].

Definition customers_keys : list string :=
  ["country"; "email"; "name"; "customer_id"; "chat_group_ids";
   "chats_count"; "threads_count"; "visits_count"; "created_at";
   "agent_last_event_created_at"; "customer_last_event_created_at";
   "include_customers_without_chats"].

Definition chats_keys : list string :=
  ["include_active"; "include_chats_without_threads"; "group_ids";
   "properties"].

Definition threads_keys : list string := ["from"; "to"].

(** The object of a value set: the list under [values] or under
    [exclude_values], or nothing when the list has no element. *)
Definition value_set {A} (enc : A -> json) (inclusive : bool)
    (vals : slice A) : list (string * json) :=
  if Enc.empty_slice vals then []
  else [(if inclusive then "values" else "exclude_values", Enc.arr enc vals)].

(** The string filters of the customers aggregate. *)
Inductive strkey : Type := SCountry | SEmail | SName | SCustomerID.

Definition strkey_key (k : strkey) : string :=
  match k with
  | SCountry => "country"
  | SEmail => "email"
  | SName => "name"
  | SCustomerID => "customer_id"
  end.

Definition by_strkey (k : strkey) (cf : loc) (values : slice string)
    (inclusive : bool) : M customersFilters.t loc :=
  match k with
  | SCountry => customersFilters.ByCountry cf values inclusive
  | SEmail => customersFilters.ByEmail cf values inclusive
  | SName => customersFilters.ByName cf values inclusive
  | SCustomerID => customersFilters.ByID cf values inclusive
  end.

(** The JSON document of the aggregate a pointer refers to. *)
Definition payload {T} (marshal : T -> json) (p : loc) : M T json :=
  do a <- load p;
  ret (marshal a).

(** A value-set field is populated when it holds a list, empty or not:
    when it is not nil. *)
Definition populated {A} (s : slice A) : bool := negb (isnil s).

(** A store with two chats aggregates. *)
Definition two_chats : gmap loc chatsFilters.t :=
  {[ 2%positive := chatsFilters.mk true false None None;
     5%positive := chatsFilters.mk false true (Some [1%N]) None ]}.

(** * Properties *)

(** ** Running store computations *)
Section run.
Context {T : Type}.
Implicit Types (h : gmap loc T) (p : loc) (a v : T).

Lemma bind_run {A B} (m : M T A) (f : A -> M T B) h x h' :
  m h = Some (x, h') -> bind m f h = f x h'.
Proof. intros E. unfold bind. now rewrite E. Qed.

Lemma load_run h p a : h !! p = Some a -> load p h = Some (a, h).
Proof. intros E. unfold load. now rewrite E. Qed.

Lemma store_run h p a v :
  h !! p = Some a -> store p v h = Some (tt, <[p := v]> h).
Proof. intros E. unfold store. now rewrite E. Qed.

Lemma assign_run h p a (set : T -> T) :
  h !! p = Some a -> assign p set h = Some (tt, <[p := set a]> h).
Proof.
  intros E. unfold assign.
  rewrite (bind_run _ _ _ _ _ (load_run _ _ _ E)).
  now apply store_run with a.
Qed.

(** A chained setter: the field assignment followed by [return p]. *)
Lemma setter_run h p a (set : T -> T) :
  h !! p = Some a ->
  (assign p set;; ret p) h = Some (p, <[p := set a]> h).
Proof.
  intros E. now rewrite (bind_run _ _ _ _ _ (assign_run _ _ _ set E)).
Qed.

Lemma new_run h v :
  new v h = Some (fresh (dom h), <[fresh (dom h) := v]> h).
Proof. reflexivity. Qed.

Lemma new_fresh h v p h' : new v h = Some (p, h') -> h !! p = None.
Proof.
  rewrite new_run. intros [= <- _].
  apply not_elem_of_dom, is_fresh.
Qed.

(** A method called on a pointer to no object panics. *)
Lemma assign_panic h p (set : T -> T) :
  h !! p = None -> assign p set h = None.
Proof. intros E. unfold assign, bind, load. now rewrite E. Qed.

End run.

(** ** The encoder on samples *)

Example encode_sample :
  Text.encode (JObj [("a", JArr [JNum 1; JNum (-20); JNull]);
                     ("b<", JStr "x\y"); ("c", JObj []); ("d", JBool true)])
  = text "{'a':[1,-20,null],'b\u003c':'x\\y','c':{},'d':true}".
Proof. vm_compute. reflexivity. Qed.

Example marshal_range_example :
  Text.encode (RangeFilter.marshal (RangeFilter.mk 5 0 1 0 0))
  = text "{'lte':5,'gte':1}".
Proof. vm_compute. reflexivity. Qed.

Example marshal_properties_example :
  Text.encode (marshal_PropertiesFilters
    (Some {[ "ns2" := Some {[ "p" := Some (NewPropertyFilterType false None true) ]};
             "ns1" := Some {[ "b" := None;
                              "a" := Some (NewPropertyFilterType true
                                             (Some [JStr "x"; JNum 2]) false) ]};
             "ns0" := None ]}))
  = text "{'ns0':null,'ns1':{'a':{'values':['x',2],'require_every_value':false},'b':null},'ns2':{'p':{'exists':false}}}".
Proof. vm_compute. reflexivity. Qed.

Example text_apostrophe : text "'" = String (ascii_of_N 34) EmptyString.
Proof. reflexivity. Qed.

(** ** Constructors of the value objects *)

(** C2: for every [includes] and every [requireEvery],
    [NewPropertyFilterType(includes, nil, requireEvery)] has
    [Exists == includes], both value sets unpopulated and
    [RequireEveryValue] unset: the last argument is ignored. *)
Theorem NewPropertyFilterType_nil (includes requireEvery : bool) :
  NewPropertyFilterType includes None requireEvery
  = propertyFilterType.mk (Some includes) None None None.
Proof. reflexivity. Qed.

(** C3: for every non-nil value list [V] and every [r],
    [NewPropertyFilterType(true, V, r)] has [Values == V],
    [RequireEveryValue == r], [ExcludeValues] and [Exists] unset, and
    [NewPropertyFilterType(false, V, r)] has [ExcludeValues == V],
    [RequireEveryValue == r], [Values] and [Exists] unset. *)
Theorem NewPropertyFilterType_values (V : slice any) (r : bool) :
  V <> None ->
  NewPropertyFilterType true V r = propertyFilterType.mk None V None (Some r)
  /\ NewPropertyFilterType false V r
     = propertyFilterType.mk None None V (Some r).
Proof.
  intros HV. destruct V as [l|]; [|congruence].
  split; reflexivity.
Qed.

Lemma NewPropertyFilterType_values_witness :
  NewPropertyFilterType true (Some [JStr "vip"; JNum 7]) false
  = propertyFilterType.mk None (Some [JStr "vip"; JNum 7]) None (Some false)
  /\ NewPropertyFilterType false (Some [JStr "vip"; JNum 7]) false
     = propertyFilterType.mk None None (Some [JStr "vip"; JNum 7]) (Some false).
Proof.
  apply (NewPropertyFilterType_values (Some [JStr "vip"; JNum 7]) false).
  discriminate.
Defined.

(** The empty, non-nil list is a value list like any other. *)
Example NewPropertyFilterType_empty_list :
  NewPropertyFilterType true (Some []) true
  = propertyFilterType.mk None (Some []) None (Some true).
Proof. reflexivity. Qed.

(** C6, as amended: for every value list [V] and every [inclusive],
    [NewStringFilter(V, inclusive)] and [NewIntegerFilter(V, inclusive)]
    hold [V] in [Values] with [ExcludeValues] unset when [inclusive] is
    true, and in [ExcludeValues] with [Values] unset when it is false; so
    exactly one of the two fields is populated when [V] is not nil, and
    neither is when [V] is nil.  The constructors are total: no input is
    rejected. *)
Theorem NewStringFilter_NewIntegerFilter_exclusive
    (V : slice string) (W : slice Z) (inclusive : bool) :
  NewStringFilter V inclusive
  = (if inclusive then stringFilter.mk V None else stringFilter.mk None V)
  /\ NewIntegerFilter W inclusive
     = (if inclusive then integerFilter.mk W None else integerFilter.mk None W)
  /\ xorb (populated (stringFilter.Values (NewStringFilter V inclusive)))
          (populated (stringFilter.ExcludeValues (NewStringFilter V inclusive)))
     = populated V
  /\ xorb (populated (integerFilter.Values (NewIntegerFilter W inclusive)))
          (populated
             (integerFilter.ExcludeValues (NewIntegerFilter W inclusive)))
     = populated W.
Proof.
  destruct inclusive; cbn; repeat split;
    solve [ reflexivity | apply xorb_false_r | apply xorb_false_l ].
Qed.

(** C6, as stated, fails for the nil list: the constructors accept it and
    then neither field is populated, whatever [inclusive] is. *)
Lemma NewStringFilter_nil_populates_nothing :
  xorb (populated (stringFilter.Values (NewStringFilter None true)))
       (populated (stringFilter.ExcludeValues (NewStringFilter None true)))
  = false
  /\ xorb (populated (stringFilter.Values (NewStringFilter None false)))
          (populated (stringFilter.ExcludeValues (NewStringFilter None false)))
     = false
  /\ xorb (populated (integerFilter.Values (NewIntegerFilter None true)))
          (populated (integerFilter.ExcludeValues (NewIntegerFilter None true)))
     = false
  /\ xorb (populated (integerFilter.Values (NewIntegerFilter None false)))
          (populated
             (integerFilter.ExcludeValues (NewIntegerFilter None false)))
     = false.
Proof. repeat split. Qed.

(** ** Mutators of the aggregates *)

(** [ByThreads] stores a new aggregate in the place of the old one. *)
Lemma ByThreads_run
    (h : gmap loc archivesFilters.t) (af : loc) (a : archivesFilters.t)
    (t : slice string) :
  h !! af = Some a ->
  archivesFilters.ByThreads af t h
  = Some (af, <[af := archivesFilters.set_ThreadIDs t archivesFilters.zero]> h).
Proof.
  intros Ha. unfold archivesFilters.ByThreads.
  now rewrite (bind_run _ _ _ _ _ (store_run _ _ _ _ Ha)).
Qed.

(** C1: for every archives aggregate, in any state, and every thread-ID
    list [t], [ByThreads(t)] leaves the aggregate with [ThreadIDs == t]
    and every other field zero, and returns the same instance. *)
Theorem ByThreads_resets
    (h : gmap loc archivesFilters.t) (af : loc) (a : archivesFilters.t)
    (t : slice string) :
  h !! af = Some a ->
  archivesFilters.ByThreads af t h
  = Some (af, <[af := archivesFilters.mk None None EmptyString EmptyString
                        None None None None None t EmptyString None]> h).
Proof. intros Ha. now rewrite (ByThreads_run h af a t Ha). Qed.

Lemma ByThreads_resets_witness :
  archivesFilters.ByThreads 1%positive (Some ["T1"; "T2"])
    {[ 1%positive := full_archives ]}
  = Some (1%positive,
          <[1%positive :=
              archivesFilters.mk None None EmptyString EmptyString None None
                None None None (Some ["T1"; "T2"]) EmptyString None]>
            {[ 1%positive := full_archives ]}).
Proof.
  apply (ByThreads_resets {[ 1%positive := full_archives ]} 1%positive
           full_archives (Some ["T1"; "T2"])).
  reflexivity.
Defined.

(** Every mutator but [ByThreads] is one field assignment. *)
Ltac setter Ha :=
  eexists; split;
  [ apply setter_run; exact Ha
  | split; [ reflexivity | intros f Hf; destruct f; solve [reflexivity | now elim Hf] ] ].

Lemma ByEventTypes_run
    (h : gmap loc archivesFilters.t) (af : loc) (a : archivesFilters.t)
    (includes : bool) (vals : slice string) (r : bool) :
  h !! af = Some a ->
  archivesFilters.ByEventTypes af includes vals r h
  = Some (af, <[af := archivesFilters.set_EventTypes
                        (Some (if includes
                               then eventTypesFilter.mk vals None (Some r)
                               else eventTypesFilter.mk None vals (Some r))) a]> h).
Proof.
  intros Ha. unfold archivesFilters.ByEventTypes.
  destruct includes;
    rewrite (bind_run _ _ _ _ _ (assign_run _ _ _ _ Ha));
    rewrite (bind_run _ _ _ _ _ (load_run _ _ _ (lookup_insert_eq _ _ _)));
    cbn [archivesFilters.EventTypes archivesFilters.set_EventTypes];
    rewrite (bind_run _ _ _ _ _ (store_run _ _ _ _ (lookup_insert_eq _ _ _)));
    unfold ret; rewrite insert_insert_eq; reflexivity.
Qed.

Lemma archives_mutator_frame
    (h : gmap loc archivesFilters.t) (p : loc) (a : archivesFilters.t)
    (m : archivesFilters.mutator) :
  h !! p = Some a ->
  archivesFilters.resets m = false ->
  exists a',
    archivesFilters.call m p h = Some (p, <[p := a']> h)
    /\ archivesFilters.written m a'
    /\ forall f, f <> archivesFilters.target m -> archivesFilters.same f a a'.
Proof.
  intros Ha Hm. destruct m; try discriminate Hm; cbn [archivesFilters.call];
    try (setter Ha).
  eexists; split; [ apply ByEventTypes_run; exact Ha | ].
  split; [ reflexivity | ].
  intros f Hf; destruct f; solve [reflexivity | now elim Hf].
Qed.

Lemma customers_mutator_frame
    (h : gmap loc customersFilters.t) (p : loc) (a : customersFilters.t)
    (m : customersFilters.mutator) :
  h !! p = Some a ->
  exists a',
    customersFilters.call m p h = Some (p, <[p := a']> h)
    /\ customersFilters.written m a'
    /\ forall f, f <> customersFilters.target m -> customersFilters.same f a a'.
Proof.
  intros Ha. destruct m; cbn [customersFilters.call]; setter Ha.
Qed.

Lemma chats_mutator_frame
    (h : gmap loc chatsFilters.t) (p : loc) (a : chatsFilters.t)
    (m : chatsFilters.mutator) :
  h !! p = Some a ->
  exists a',
    chatsFilters.call m p h = Some (p, <[p := a']> h)
    /\ chatsFilters.written m a'
    /\ forall f, f <> chatsFilters.target m -> chatsFilters.same f a a'.
Proof.
  intros Ha. destruct m; cbn [chatsFilters.call]; setter Ha.
Qed.

Lemma threads_mutator_frame
    (h : gmap loc threadsFilters.t) (p : loc) (a : threadsFilters.t)
    (m : threadsFilters.mutator) :
  h !! p = Some a ->
  exists a',
    threadsFilters.call m p h = Some (p, <[p := a']> h)
    /\ threadsFilters.written m a'
    /\ forall f, f <> threadsFilters.target m -> threadsFilters.same f a a'.
Proof.
  intros Ha. destruct m; cbn [threadsFilters.call]; setter Ha.
Qed.

(** C8: for every aggregate, in any state, and every chained mutator
    other than the archives [ByThreads], the call does not fail, returns
    the pointer it was called on, and changes the store at that pointer
    only; the new aggregate holds the assigned value in the field the
    mutator corresponds to and agrees with the old one on every other
    field. *)
Theorem mutator_frame
    (k : kind) (h : gmap loc (state (aggregate_of k))) (p : loc)
    (a : state (aggregate_of k)) (m : mutator (aggregate_of k)) :
  h !! p = Some a ->
  resets (aggregate_of k) m = false ->
  exists a',
    call (aggregate_of k) m p h = Some (p, <[p := a']> h)
    /\ written (aggregate_of k) m a'
    /\ forall f, f <> target (aggregate_of k) m ->
                 same (aggregate_of k) f a a'.
Proof.
  destruct k; cbn in *; intros Ha Hm.
  - now apply archives_mutator_frame.
  - now apply customers_mutator_frame.
  - now apply chats_mutator_frame.
  - now apply threads_mutator_frame.
Qed.

Lemma mutator_frame_witness :
  exists a',
    call (aggregate_of Archives)
      (archivesFilters.CallByQuery "refund") 1%positive
      {[ 1%positive := full_archives ]}
    = Some (1%positive, <[1%positive := a']> {[ 1%positive := full_archives ]})
    /\ written (aggregate_of Archives) (archivesFilters.CallByQuery "refund") a'
    /\ forall f,
         f <> target (aggregate_of Archives) (archivesFilters.CallByQuery "refund") ->
         same (aggregate_of Archives) f full_archives a'.
Proof.
  apply (mutator_frame Archives {[ 1%positive := full_archives ]} 1%positive
           full_archives (archivesFilters.CallByQuery "refund")).
  - reflexivity.
  - reflexivity.
Defined.

(** [ByThreads] is the exception: it does not keep the other fields. *)
Example ByThreads_drops_query :
  exists a',
    archivesFilters.ByThreads 1%positive (Some ["T1"])
      {[ 1%positive := full_archives ]}
    = Some (1%positive, <[1%positive := a']> {[ 1%positive := full_archives ]})
    /\ archivesFilters.Query a' <> archivesFilters.Query full_archives.
Proof.
  eexists; split.
  - apply ByThreads_run with full_archives. apply lookup_singleton_eq.
  - discriminate.
Qed.

(** A mutator called through a pointer to no aggregate panics. *)
Example ByGroups_nil_receiver :
  archivesFilters.ByGroups 1%positive (Some [1%N]) ∅ = None.
Proof. reflexivity. Qed.

(** ** Serialisation *)

Lemma assoc_app (k : string) (fs gs : list (string * json)) :
  assoc k (fs ++ gs)
  = match assoc k fs with
    | Some v => Some v
    | None => assoc k gs
    end.
Proof.
  induction fs as [|[k' v] fs IH]; cbn; [reflexivity|].
  destruct (String.eqb k k'); [reflexivity | exact IH].
Qed.

Lemma assoc_omitempty (k k' : string) (e : bool) (v : json) :
  assoc k (Enc.omitempty e k' v)
  = if e then None else if String.eqb k k' then Some v else None.
Proof. destruct e; reflexivity. Qed.

Lemma assoc_omitempty_ne (k k' : string) (e : bool) (v : json)
    (rest : list (string * json)) :
  String.eqb k k' = false ->
  assoc k (Enc.omitempty e k' v ++ rest) = assoc k rest.
Proof.
  intros Hk. rewrite assoc_app, assoc_omitempty, Hk. now destruct e.
Qed.

Lemma assoc_omitempty_eq (k : string) (e : bool) (v : json)
    (rest : list (string * json)) :
  assoc k (Enc.omitempty e k v ++ rest)
  = if e then assoc k rest else Some v.
Proof.
  rewrite assoc_app, assoc_omitempty, String.eqb_refl. now destruct e.
Qed.

(** A bound of a numeric range is a member of its object exactly when
    it is not 0. *)
Lemma RangeFilter_member (r : RangeFilter.t) (b : bound) :
  member (bound_key b) (RangeFilter.marshal r)
  = if range_bound b r =? 0 then None else Some (JNum (range_bound b r)).
Proof.
  unfold RangeFilter.marshal, member.
  rewrite !assoc_app, !assoc_omitempty. unfold Enc.empty_int.
  destruct r as [lte lt gte gt eq]; cbn [RangeFilter.LTE RangeFilter.LT
    RangeFilter.GTE RangeFilter.GT RangeFilter.EQ].
  destruct b; cbn;
    destruct (lte =? 0), (lt =? 0), (gte =? 0), (gt =? 0), (eq =? 0);
    reflexivity.
Qed.

Lemma DateRangeFilter_member (r : DateRangeFilter.t) (b : bound) :
  member (bound_key b) (DateRangeFilter.marshal r)
  = if String.eqb (date_bound b r) EmptyString then None
    else Some (JStr (date_bound b r)).
Proof.
  unfold DateRangeFilter.marshal, member.
  rewrite !assoc_app, !assoc_omitempty. unfold Enc.empty_string.
  destruct r as [lte lt gte gt eq]; cbn [DateRangeFilter.LTE DateRangeFilter.LT
    DateRangeFilter.GTE DateRangeFilter.GT DateRangeFilter.EQ].
  destruct b; cbn;
    destruct (String.eqb lte EmptyString), (String.eqb lt EmptyString),
             (String.eqb gte EmptyString), (String.eqb gt EmptyString),
             (String.eqb eq EmptyString);
    reflexivity.
Qed.

Lemma customers_member_count (cf : customersFilters.t) (c : count) :
  member (count_key c) (customersFilters.marshal cf)
  = RangeFilter.marshal <$> count_field c cf.
Proof.
  unfold customersFilters.marshal, member.
  destruct c; cbn [count_key count_field];
    rewrite !assoc_omitempty_ne by reflexivity;
    rewrite assoc_omitempty_eq;
    match goal with
    | |- _ = _ <$> ?x => destruct x; [reflexivity|]
    end;
    cbn [Enc.empty_ptr isnil];
    rewrite ?assoc_omitempty_ne by reflexivity;
    rewrite assoc_omitempty; now destruct (Enc.empty_ptr _).
Qed.

Lemma archives_member_thread_ids (a : archivesFilters.t) :
  member "thread_ids" (archivesFilters.marshal a)
  = if Enc.empty_slice (archivesFilters.ThreadIDs a) then None
    else Some (Enc.arr JStr (archivesFilters.ThreadIDs a)).
Proof.
  unfold archivesFilters.marshal, member.
  rewrite !assoc_omitempty_ne by reflexivity.
  rewrite assoc_omitempty_eq.
  destruct (Enc.empty_slice (archivesFilters.ThreadIDs a)); [|reflexivity].
  rewrite assoc_omitempty_ne by reflexivity.
  rewrite assoc_omitempty. now destruct (Enc.empty_ptr _).
Qed.

(** Steps of a program that builds an aggregate at a fresh pointer. *)
Ltac step_new := rewrite (bind_run _ _ _ _ _ (new_run _ _)).
Ltac step_set :=
  rewrite (bind_run _ _ _ _ _ (setter_run _ _ _ _ (lookup_insert_eq _ _ _)));
  rewrite insert_insert_eq.
Ltac step_load :=
  rewrite (bind_run _ _ _ _ _ (load_run _ _ _ (lookup_insert_eq _ _ _))).

(** C4, as amended: serialising a freshly constructed archives, customers
    or threads aggregate gives the empty object; a freshly constructed
    chats aggregate, which includes active chats by default, gives an
    object with [include_active] set to true. *)
Theorem fresh_aggregate_text
    (k : kind) (h : gmap loc (state (aggregate_of k))) :
  result (fresh_text k) h
  = Some (match k with
          | Chats => text "{'include_active':true}"
          | Archives | Customers | Threads => "{}"
          end).
Proof.
  unfold result, fresh_text.
  destruct k; cbn [aggregate_of create ToJSON state archives customers chats
                   threads] in *;
    unfold NewArchivesFilters, NewCustomersFilters, NewChatsFilters,
      NewThreadsFilters, archivesFilters.ToJSON, customersFilters.ToJSON,
      chatsFilters.ToJSON, threadsFilters.ToJSON;
    step_new; step_load; reflexivity.
Qed.

(** C4, as stated, fails for the chats aggregate: its fresh text is not
    the empty object. *)
Lemma fresh_chats_text_not_empty :
  result (fresh_text Chats) ∅ = Some (text "{'include_active':true}")
  /\ result (fresh_text Chats) ∅ <> Some "{}".
Proof.
  split.
  - vm_compute. reflexivity.
  - vm_compute. discriminate.
Qed.

(** C5: [NewChatsFilters().WithoutActiveChats()] serialises to the empty
    object: [include_active], set back to false, is omitted. *)
Theorem without_active_text (h : gmap loc chatsFilters.t) :
  result without_active_example h = Some "{}".
Proof.
  unfold result, without_active_example, NewChatsFilters,
    chatsFilters.WithoutActiveChats, chatsFilters.ToJSON.
  step_new. step_set. step_load. reflexivity.
Qed.

(** C7: [NewArchivesFilters().ByGroups([]uint{1,2}).FromDate("2020-01-01")]
    serialises to exactly the object with [group_ids] [1,2] and [from]
    "2020-01-01", in this order and with no other field. *)
Theorem groups_from_text (h : gmap loc archivesFilters.t) :
  result groups_from_example h
  = Some (text "{'group_ids':[1,2],'from':'2020-01-01'}").
Proof.
  unfold result, groups_from_example, NewArchivesFilters,
    archivesFilters.ByGroups, archivesFilters.FromDate, archivesFilters.ToJSON.
  step_new. step_set. step_set. step_load. reflexivity.
Qed.

(** C9: the exclusivity of the thread-ID filter holds at the call of
    [ByThreads] only.  For every thread-ID list [t] and every other
    archives mutator [m], [m] called after [ByThreads(t)] leaves
    [ThreadIDs == t] and writes its own field, and the object of the
    result has [thread_ids] whenever [t] is not empty; for instance
    [ByThreads] followed by [ByQuery] serialises to an object with both
    [thread_ids] and [query]. *)
Theorem ByThreads_then_mutator :
  (forall (h : gmap loc archivesFilters.t) (af : loc) (a : archivesFilters.t)
          (t : slice string) (m : archivesFilters.mutator),
      h !! af = Some a ->
      archivesFilters.resets m = false ->
      exists a',
        (do af' <- archivesFilters.ByThreads af t;
         archivesFilters.call m af') h = Some (af, <[af := a']> h)
        /\ archivesFilters.ThreadIDs a' = t
        /\ archivesFilters.written m a'
        /\ member "thread_ids" (archivesFilters.marshal a')
           = if Enc.empty_slice t then None else Some (Enc.arr JStr t))
  /\ result threads_query_example ∅
     = Some (text "{'thread_ids':['T1'],'query':'hello'}").
Proof.
  split; [|vm_compute; reflexivity].
  intros h af a t m Ha Hm.
  rewrite (bind_run _ _ _ _ _ (ByThreads_run h af a t Ha)).
  match goal with
  | |- context [<[af := ?a0]> h] =>
    destruct (archives_mutator_frame _ af a0 m (lookup_insert_eq h af a0) Hm)
      as (a' & Hrun & Hw & Hsame)
  end.
  exists a'. rewrite Hrun, insert_insert_eq.
  assert (Ht : archivesFilters.ThreadIDs a' = t).
  { destruct m; try discriminate Hm;
      symmetry; apply (Hsame archivesFilters.FThreadIDs); discriminate. }
  repeat split; try assumption.
  now rewrite archives_member_thread_ids, Ht.
Qed.

Lemma ByThreads_then_mutator_witness :
  exists a',
    (do af' <- archivesFilters.ByThreads 1%positive (Some ["T1"]);
     archivesFilters.call (archivesFilters.CallByGroups (Some [3%N])) af')
      {[ 1%positive := full_archives ]}
    = Some (1%positive, <[1%positive := a']> {[ 1%positive := full_archives ]})
    /\ archivesFilters.ThreadIDs a' = Some ["T1"]
    /\ archivesFilters.written (archivesFilters.CallByGroups (Some [3%N])) a'
    /\ member "thread_ids" (archivesFilters.marshal a')
       = Some (JArr [JStr "T1"]).
Proof.
  apply (proj1 ByThreads_then_mutator {[ 1%positive := full_archives ]}
           1%positive full_archives (Some ["T1"])
           (archivesFilters.CallByGroups (Some [3%N]))).
  - reflexivity.
  - reflexivity.
Defined.

(** C10: a bound of a [RangeFilter] that is 0, and a bound of a
    [DateRangeFilter] that is the empty string, is omitted from the
    serialised object; hence the range written by [ByChatsCount],
    [ByThreadsCount] or [ByVisitsCount] never shows a bound equal to 0 in
    the payload, whatever the state of the customers aggregate. *)
Theorem zero_bounds_omitted :
  (forall (r : RangeFilter.t) (b : bound),
      range_bound b r = 0 ->
      member (bound_key b) (RangeFilter.marshal r) = None)
  /\ (forall (d : DateRangeFilter.t) (b : bound),
      date_bound b d = EmptyString ->
      member (bound_key b) (DateRangeFilter.marshal d) = None)
  /\ (forall (h : gmap loc customersFilters.t) (cf : loc)
             (c0 : customersFilters.t) (c : count)
             (ranges : option RangeFilter.t),
      h !! cf = Some c0 ->
      exists c1,
        by_count c cf ranges h = Some (cf, <[cf := c1]> h)
        /\ member (count_key c) (customersFilters.marshal c1)
           = RangeFilter.marshal <$> ranges)
  /\ (forall (c1 : customersFilters.t) (c : count) (b : bound) (j : json),
      member (count_key c) (customersFilters.marshal c1) = Some j ->
      member (bound_key b) j <> Some (JNum 0)).
Proof.
  repeat split.
  - intros r b Hb. now rewrite RangeFilter_member, Hb.
  - intros d b Hb. now rewrite DateRangeFilter_member, Hb.
  - intros h cf c0 c ranges Hc.
    destruct c; cbn [by_count];
      (eexists; split; [apply setter_run; exact Hc|]);
      now rewrite customers_member_count.
  - intros c1 c b j. rewrite customers_member_count.
    destruct (count_field c c1) as [r|]; [|discriminate].
    intros [= <-]. rewrite RangeFilter_member.
    destruct (range_bound b r =? 0) eqn:E; [discriminate|].
    intros [= E0]. now rewrite E0 in E.
Qed.

Lemma zero_bounds_omitted_witness :
  member "eq" (RangeFilter.marshal (RangeFilter.mk 5 0 1 0 0)) = None
  /\ member "gte"
       (DateRangeFilter.marshal
          (DateRangeFilter.mk "2020-12-31T00:00:00.000000Z" EmptyString
             EmptyString EmptyString EmptyString)) = None
  /\ (exists c1,
        customersFilters.ByChatsCount 1%positive
          (Some (RangeFilter.mk 0 0 0 0 0))
          {[ 1%positive := customersFilters.zero ]}
        = Some (1%positive, <[1%positive := c1]>
                              {[ 1%positive := customersFilters.zero ]})
        /\ member "chats_count" (customersFilters.marshal c1)
           = Some (JObj [])).
Proof.
  destruct zero_bounds_omitted as (Hr & Hd & Hby & _).
  split; [|split].
  - apply (Hr (RangeFilter.mk 5 0 1 0 0) Beq). reflexivity.
  - apply (Hd (DateRangeFilter.mk "2020-12-31T00:00:00.000000Z" EmptyString
                 EmptyString EmptyString EmptyString) Bgte).
    reflexivity.
  - apply (Hby {[ 1%positive := customersFilters.zero ]} 1%positive
             customersFilters.zero ChatsCount
             (Some (RangeFilter.mk 0 0 0 0 0))).
    reflexivity.
Defined.

(** The spec's example of a range, and a range asking for no chats at
    all: the latter is sent as an empty object. *)
Example chats_count_range :
  result (chats_count_example (Some (RangeFilter.mk 5 0 1 0 0))) ∅
  = Some (JObj [("chats_count", JObj [("lte", JNum 5); ("gte", JNum 1)])]).
Proof. vm_compute. reflexivity. Qed.

Example chats_count_equal_zero :
  result (chats_count_example (Some (RangeFilter.mk 0 0 0 0 0))) ∅
  = Some (JObj [("chats_count", JObj [])]).
Proof. vm_compute. reflexivity. Qed.

(** * Further properties of the builders *)

(** ** The effect of one call *)

Lemma archives_call_effect
    (h : gmap loc archivesFilters.t) (p : loc) (a : archivesFilters.t)
    (m : archivesFilters.mutator) :
  h !! p = Some a ->
  archivesFilters.call m p h = Some (p, <[p := archives_effect m a]> h).
Proof.
  intros Ha. destruct m; cbn [archivesFilters.call archives_effect];
    first [ apply setter_run; exact Ha
          | apply ByThreads_run with a; exact Ha
          | apply ByEventTypes_run; exact Ha ].
Qed.

Lemma customers_call_effect
    (h : gmap loc customersFilters.t) (p : loc) (c : customersFilters.t)
    (m : customersFilters.mutator) :
  h !! p = Some c ->
  customersFilters.call m p h = Some (p, <[p := customers_effect m c]> h).
Proof.
  intros Hc. destruct m; cbn [customersFilters.call customers_effect];
    apply setter_run; exact Hc.
Qed.

Lemma chats_call_effect
    (h : gmap loc chatsFilters.t) (p : loc) (c : chatsFilters.t)
    (m : chatsFilters.mutator) :
  h !! p = Some c ->
  chatsFilters.call m p h = Some (p, <[p := chats_effect m c]> h).
Proof.
  intros Hc. destruct m; cbn [chatsFilters.call chats_effect];
    apply setter_run; exact Hc.
Qed.

Lemma threads_call_effect
    (h : gmap loc threadsFilters.t) (p : loc) (f : threadsFilters.t)
    (m : threadsFilters.mutator) :
  h !! p = Some f ->
  threadsFilters.call m p h = Some (p, <[p := threads_effect m f]> h).
Proof.
  intros Hf. destruct m; cbn [threadsFilters.call threads_effect];
    apply setter_run; exact Hf.
Qed.

Lemma call_effect
    (k : kind) (h : gmap loc (state (aggregate_of k))) (p : loc)
    (a : state (aggregate_of k)) (m : mutator (aggregate_of k)) :
  h !! p = Some a ->
  call (aggregate_of k) m p h = Some (p, <[p := effect k m a]> h).
Proof.
  destruct k; cbn in *; intros Ha.
  - now apply archives_call_effect.
  - now apply customers_call_effect.
  - now apply chats_call_effect.
  - now apply threads_call_effect.
Qed.

(** A chain of calls is the chain of their effects, at the same pointer. *)
Lemma chain_effect
    (k : kind) (ms : list (mutator (aggregate_of k)))
    (h : gmap loc (state (aggregate_of k))) (p : loc)
    (a : state (aggregate_of k)) :
  h !! p = Some a ->
  chain (aggregate_of k) ms p h
  = Some (p, <[p := foldl (fun x m => effect k m x) a ms]> h).
Proof.
  revert h a. induction ms as [|m ms IH]; intros h a Ha; cbn [chain foldl].
  - unfold ret. now rewrite insert_id.
  - rewrite (bind_run _ _ _ _ _ (call_effect k h p a m Ha)).
    rewrite (IH _ (effect k m a) (lookup_insert_eq h p _)).
    now rewrite insert_insert_eq.
Qed.

(** A call through a pointer to no aggregate panics. *)
Lemma call_panic
    (k : kind) (h : gmap loc (state (aggregate_of k))) (p : loc)
    (m : mutator (aggregate_of k)) :
  h !! p = None -> call (aggregate_of k) m p h = None.
Proof.
  destruct k; cbn in *; intros Hp; destruct m; cbn;
    unfold archivesFilters.ByAgents, archivesFilters.ByGroups,
      archivesFilters.ByThreads, archivesFilters.ByQuery,
      archivesFilters.FromDate, archivesFilters.ToDate,
      archivesFilters.ByProperties, archivesFilters.BySurveys,
      archivesFilters.ByTags, archivesFilters.BySales,
      archivesFilters.ByGoals, archivesFilters.ByEventTypes,
      customersFilters.ByCountry, customersFilters.ByEmail,
      customersFilters.ByName, customersFilters.ByID,
      customersFilters.ByChatGroupIDs, customersFilters.ByChatsCount,
      customersFilters.ByThreadsCount, customersFilters.ByVisitsCount,
      customersFilters.ByCreationTime, customersFilters.ByAgentsLastActivity,
      customersFilters.ByCustomersLastActivity,
      customersFilters.WithIncludeCustomersWithoutChats,
      chatsFilters.WithoutActiveChats, chatsFilters.WithChatsWithoutThreads,
      chatsFilters.ByGroups, chatsFilters.ByProperties,
      threadsFilters.FromDate, threadsFilters.ToDate;
    try match goal with
        | |- context [if ?b then _ else _] => destruct b
        end;
    unfold bind; rewrite ?(assign_panic _ _ _ Hp); try reflexivity;
    unfold store; now rewrite Hp.
Qed.

(** X1: a chain of mutator calls of any length, [ByThreads] included,
    called on a pointer to an aggregate, does not fail, returns that
    pointer and changes the store at that pointer only. *)
Theorem chain_frame
    (k : kind) (ms : list (mutator (aggregate_of k)))
    (h : gmap loc (state (aggregate_of k))) (p : loc)
    (a : state (aggregate_of k)) :
  h !! p = Some a ->
  exists a',
    chain (aggregate_of k) ms p h = Some (p, <[p := a']> h)
    /\ forall q, q <> p -> (<[p := a']> h) !! q = h !! q.
Proof.
  intros Ha. eexists. split.
  - apply chain_effect. exact Ha.
  - intros q Hq. now apply lookup_insert_ne.
Qed.

Lemma chain_frame_witness :
  exists a',
    chain (aggregate_of Chats)
      [chatsFilters.CallWithoutActiveChats;
       chatsFilters.CallByGroups (Some [4%N])] 2%positive two_chats
    = Some (2%positive, <[2%positive := a']> two_chats)
    /\ forall q, q <> 2%positive ->
         (<[2%positive := a']> two_chats) !! q = two_chats !! q.
Proof.
  apply (chain_frame Chats
           [chatsFilters.CallWithoutActiveChats;
            chatsFilters.CallByGroups (Some [4%N])]
           two_chats 2%positive (chatsFilters.mk true false None None)).
  reflexivity.
Defined.

(** X2: a mutator called through a pointer to no aggregate (a nil
    receiver) panics, and so does every chain of at least one call. *)
Theorem nil_receiver_panics
    (k : kind) (ms : list (mutator (aggregate_of k)))
    (h : gmap loc (state (aggregate_of k))) (p : loc) :
  h !! p = None ->
  ms <> [] ->
  chain (aggregate_of k) ms p h = None.
Proof.
  intros Hp Hms. destruct ms as [|m ms]; [congruence|].
  cbn [chain]. unfold bind. now rewrite (call_panic k h p m Hp).
Qed.

Lemma nil_receiver_panics_witness :
  chain (aggregate_of Threads) [threadsFilters.CallFromDate "2020-01-01"]
    1%positive ∅ = None.
Proof.
  apply (nil_receiver_panics Threads
           [threadsFilters.CallFromDate "2020-01-01"] ∅ 1%positive).
  - reflexivity.
  - discriminate.
Defined.

(** ** Composition of calls *)

Lemma effect_commute
    (k : kind) (m1 m2 : mutator (aggregate_of k))
    (a : state (aggregate_of k)) :
  resets (aggregate_of k) m1 = false ->
  resets (aggregate_of k) m2 = false ->
  target (aggregate_of k) m1 <> target (aggregate_of k) m2 ->
  effect k m2 (effect k m1 a) = effect k m1 (effect k m2 a).
Proof.
  destruct k; cbn in *; intros H1 H2 Ht;
    destruct m1; try discriminate H1;
    destruct m2; try discriminate H2;
    solve [reflexivity | now elim Ht].
Qed.

Lemma effect_override
    (k : kind) (m1 m2 : mutator (aggregate_of k))
    (a : state (aggregate_of k)) :
  target (aggregate_of k) m1 = target (aggregate_of k) m2 ->
  effect k m2 (effect k m1 a) = effect k m2 a.
Proof.
  destruct k; cbn in *; intros Ht;
    destruct m1; destruct m2; solve [reflexivity | discriminate Ht].
Qed.

(** X3: two mutators that correspond to different fields, neither of
    them [ByThreads], can be chained in either order: the store and the
    returned pointer are the same. *)
Theorem mutators_commute
    (k : kind) (h : gmap loc (state (aggregate_of k))) (p : loc)
    (a : state (aggregate_of k)) (m1 m2 : mutator (aggregate_of k)) :
  h !! p = Some a ->
  resets (aggregate_of k) m1 = false ->
  resets (aggregate_of k) m2 = false ->
  target (aggregate_of k) m1 <> target (aggregate_of k) m2 ->
  chain (aggregate_of k) [m1; m2] p h = chain (aggregate_of k) [m2; m1] p h.
Proof.
  intros Ha H1 H2 Ht.
  rewrite !(chain_effect k _ h p a Ha). cbn [foldl].
  now rewrite effect_commute.
Qed.

Lemma mutators_commute_witness :
  chain (aggregate_of Archives)
    [archivesFilters.CallByQuery "refund";
     archivesFilters.CallByTags false (Some [JStr "spam"]) true]
    1%positive {[ 1%positive := full_archives ]}
  = chain (aggregate_of Archives)
      [archivesFilters.CallByTags false (Some [JStr "spam"]) true;
       archivesFilters.CallByQuery "refund"]
      1%positive {[ 1%positive := full_archives ]}.
Proof.
  apply (mutators_commute Archives {[ 1%positive := full_archives ]}
           1%positive full_archives
           (archivesFilters.CallByQuery "refund")
           (archivesFilters.CallByTags false (Some [JStr "spam"]) true)).
  - reflexivity.
  - reflexivity.
  - reflexivity.
  - discriminate.
Defined.

(** [ByThreads] does not commute with the other mutators. *)
Example ByThreads_does_not_commute :
  chain (aggregate_of Archives)
    [archivesFilters.CallByQuery "refund";
     archivesFilters.CallByThreads (Some ["T1"])]
    1%positive {[ 1%positive := archivesFilters.zero ]}
  <> chain (aggregate_of Archives)
       [archivesFilters.CallByThreads (Some ["T1"]);
        archivesFilters.CallByQuery "refund"]
       1%positive {[ 1%positive := archivesFilters.zero ]}.
Proof.
  rewrite !(chain_effect Archives _ _ _ archivesFilters.zero
              (lookup_singleton_eq _ _)).
  cbn. discriminate.
Qed.

(** X4: the last call wins: a mutator called after another one that
    corresponds to the same field leaves the aggregate as if it had been
    called alone. *)
Theorem last_call_wins
    (k : kind) (h : gmap loc (state (aggregate_of k))) (p : loc)
    (a : state (aggregate_of k)) (m1 m2 : mutator (aggregate_of k)) :
  h !! p = Some a ->
  target (aggregate_of k) m1 = target (aggregate_of k) m2 ->
  chain (aggregate_of k) [m1; m2] p h = chain (aggregate_of k) [m2] p h.
Proof.
  intros Ha Ht.
  rewrite !(chain_effect k _ h p a Ha). cbn [foldl].
  now rewrite effect_override.
Qed.

Lemma last_call_wins_witness :
  chain (aggregate_of Customers)
    [customersFilters.CallByCountry (Some ["PL"; "DE"]) true;
     customersFilters.CallByCountry (Some ["US"]) false]
    1%positive {[ 1%positive := customersFilters.zero ]}
  = chain (aggregate_of Customers)
      [customersFilters.CallByCountry (Some ["US"]) false]
      1%positive {[ 1%positive := customersFilters.zero ]}.
Proof.
  apply (last_call_wins Customers {[ 1%positive := customersFilters.zero ]}
           1%positive customersFilters.zero
           (customersFilters.CallByCountry (Some ["PL"; "DE"]) true)
           (customersFilters.CallByCountry (Some ["US"]) false)).
  - reflexivity.
  - reflexivity.
Defined.

(** ** Constructors and independent builders *)

Lemma create_run (k : kind) (h : gmap loc (state (aggregate_of k))) :
  create (aggregate_of k) h
  = Some (fresh (dom h), <[fresh (dom h) := initial k]> h).
Proof. destruct k; reflexivity. Qed.

(** X5: two aggregates built one after the other are different objects,
    both new in the store; a chain of calls on the first leaves the
    second as its constructor made it, and the objects that were in the
    store before are unchanged. *)
Theorem builders_independent
    (k : kind) (h : gmap loc (state (aggregate_of k)))
    (ms : list (mutator (aggregate_of k))) :
  exists p1 p2 h',
    (do p1 <- create (aggregate_of k);
     do p2 <- create (aggregate_of k);
     do _ <- chain (aggregate_of k) ms p1;
     ret (p1, p2)) h = Some ((p1, p2), h')
    /\ p1 <> p2
    /\ h !! p1 = None /\ h !! p2 = None
    /\ h' !! p2 = Some (initial k)
    /\ forall q, is_Some (h !! q) -> h' !! q = h !! q.
Proof.
  set (p1 := fresh (dom h)).
  set (h1 := <[p1 := initial k]> h).
  set (p2 := fresh (dom h1)).
  assert (H1 : h !! p1 = None) by apply not_elem_of_dom, is_fresh.
  assert (H2 : h1 !! p2 = None) by apply not_elem_of_dom, is_fresh.
  assert (Hne : p1 <> p2).
  { intros E. unfold h1 in H2. rewrite <- E, lookup_insert_eq in H2.
    discriminate H2. }
  assert (H2' : h !! p2 = None).
  { unfold h1 in H2. now rewrite lookup_insert_ne in H2. }
  assert (Hp1 : (<[p2 := initial k]> h1) !! p1 = Some (initial k)).
  { rewrite lookup_insert_ne by congruence. apply lookup_insert_eq. }
  exists p1, p2. eexists. split; [|split; [exact Hne|]].
  - rewrite (bind_run _ _ _ _ _ (create_run k h)).
    rewrite (bind_run _ _ _ _ _ (create_run k _)).
    fold p1 h1 p2.
    rewrite (bind_run _ _ _ _ _ (chain_effect k ms _ p1 _ Hp1)).
    reflexivity.
  - split; [exact H1|]. split; [exact H2'|]. split.
    + rewrite lookup_insert_ne by exact Hne. apply lookup_insert_eq.
    + intros q [x Hq]. unfold h1.
      rewrite !lookup_insert_ne; [reflexivity|congruence..].
Qed.

(** ** Invariants over chains *)

Lemma chats_flags_fold (ms : list chatsFilters.mutator) (c : chatsFilters.t) :
  (chatsFilters.IncludeActive c = false ->
   chatsFilters.IncludeActive (foldl (fun x m => chats_effect m x) c ms)
   = false)
  /\ (chatsFilters.IncludeChatsWithoutThreads c = true ->
      chatsFilters.IncludeChatsWithoutThreads
        (foldl (fun x m => chats_effect m x) c ms) = true).
Proof.
  revert c. induction ms as [|m ms IH]; intros c; cbn [foldl]; [now split|].
  destruct (IH (chats_effect m c)) as [IHa IHt].
  split; intros Hc; [apply IHa | apply IHt]; destruct m; cbn; auto.
Qed.

(** X6: the two switches of the chats aggregate go one way only: over
    any chain of mutator calls, active chats once excluded stay excluded,
    and chats without threads once included stay included. *)
Theorem chats_switches_one_way
    (ms : list chatsFilters.mutator) (h : gmap loc chatsFilters.t)
    (p : loc) (c : chatsFilters.t) :
  h !! p = Some c ->
  exists c',
    chain (aggregate_of Chats) ms p h = Some (p, <[p := c']> h)
    /\ (chatsFilters.IncludeActive c = false ->
        chatsFilters.IncludeActive c' = false)
    /\ (chatsFilters.IncludeChatsWithoutThreads c = true ->
        chatsFilters.IncludeChatsWithoutThreads c' = true).
Proof.
  intros Hc. eexists. split.
  - apply (chain_effect Chats ms h p c Hc).
  - apply chats_flags_fold.
Qed.

Lemma chats_switches_one_way_witness :
  exists c',
    chain (aggregate_of Chats)
      [chatsFilters.CallByGroups None; chatsFilters.CallWithoutActiveChats]
      5%positive two_chats
    = Some (5%positive, <[5%positive := c']> two_chats)
    /\ (chatsFilters.IncludeActive
          (chatsFilters.mk false true (Some [1%N]) None) = false ->
        chatsFilters.IncludeActive c' = false)
    /\ (chatsFilters.IncludeChatsWithoutThreads
          (chatsFilters.mk false true (Some [1%N]) None) = true ->
        chatsFilters.IncludeChatsWithoutThreads c' = true).
Proof.
  apply (chats_switches_one_way
           [chatsFilters.CallByGroups None; chatsFilters.CallWithoutActiveChats]
           two_chats 5%positive
           (chatsFilters.mk false true (Some [1%N]) None)).
  reflexivity.
Defined.

Lemma NewPropertyFilterType_shape (i : bool) (v : slice any) (r : bool) :
  pft_shape (NewPropertyFilterType i v r) = true.
Proof. destruct v, i; reflexivity. Qed.

Lemma archives_effect_shape (m : archivesFilters.mutator)
    (a : archivesFilters.t) :
  archives_shape a = true -> archives_shape (archives_effect m a) = true.
Proof.
  unfold archives_shape. intros H.
  apply andb_prop in H as [H H5]. apply andb_prop in H as [H H4].
  apply andb_prop in H as [H H3]. apply andb_prop in H as [H1 H2].
  destruct m; cbn;
    rewrite ?NewPropertyFilterType_shape, ?H1, ?H2, ?H3, ?H4, ?H5;
    try reflexivity.
  destruct includes, vals; reflexivity.
Qed.

Lemma NewStringFilter_shape (v : slice string) (i : bool) :
  str_shape (NewStringFilter v i) = true.
Proof. destruct i; [apply orb_true_r | reflexivity]. Qed.

Lemma NewIntegerFilter_shape (v : slice Z) (i : bool) :
  int_shape (NewIntegerFilter v i) = true.
Proof. destruct i; [apply orb_true_r | reflexivity]. Qed.

Lemma customers_effect_shape (m : customersFilters.mutator)
    (c : customersFilters.t) :
  customers_shape c = true -> customers_shape (customers_effect m c) = true.
Proof.
  unfold customers_shape. intros H.
  apply andb_prop in H as [H H5]. apply andb_prop in H as [H H4].
  apply andb_prop in H as [H H3]. apply andb_prop in H as [H1 H2].
  destruct m; cbn -[NewStringFilter NewIntegerFilter];
    rewrite ?NewStringFilter_shape, ?NewIntegerFilter_shape,
      ?H1, ?H2, ?H3, ?H4, ?H5; reflexivity.
Qed.

(** X7: in every archives aggregate built from the constructor by a chain
    of mutator calls, each of the agents, tags, sales and goals filters is
    an existence check alone or exactly one value set with the
    require-every flag, and the event-type filter has the flag and at
    most one value set. *)
Theorem archives_filters_shape
    (ms : list archivesFilters.mutator) (h : gmap loc archivesFilters.t) :
  exists p a,
    (do p <- NewArchivesFilters; chain (aggregate_of Archives) ms p) h
    = Some (p, <[p := a]> h)
    /\ archives_shape a = true.
Proof.
  exists (fresh (dom h)). eexists. split.
  - rewrite (bind_run _ _ _ _ _ (create_run Archives h)).
    rewrite (chain_effect Archives ms _ _ _ (lookup_insert_eq _ _ _)).
    now rewrite insert_insert_eq.
  - generalize (eq_refl : archives_shape archivesFilters.zero = true).
    cbn [initial]. generalize archivesFilters.zero. cbn [effect].
    induction ms as [|m ms IH]; intros a Ha; cbn [foldl]; [exact Ha|].
    apply IH. now apply archives_effect_shape.
Qed.

(** X8: in every customers aggregate built from the constructor by a
    chain of mutator calls, no string or integer filter has both its
    value set and its excluded value set populated. *)
Theorem customers_filters_shape
    (ms : list customersFilters.mutator) (h : gmap loc customersFilters.t) :
  exists p c,
    (do p <- NewCustomersFilters; chain (aggregate_of Customers) ms p) h
    = Some (p, <[p := c]> h)
    /\ customers_shape c = true.
Proof.
  exists (fresh (dom h)). eexists. split.
  - rewrite (bind_run _ _ _ _ _ (create_run Customers h)).
    rewrite (chain_effect Customers ms _ _ _ (lookup_insert_eq _ _ _)).
    now rewrite insert_insert_eq.
  - generalize (eq_refl : customers_shape customersFilters.zero = true).
    cbn [initial]. generalize customersFilters.zero. cbn [effect].
    induction ms as [|m ms IH]; intros c Hc; cbn [foldl]; [exact Hc|].
    apply IH. now apply customers_effect_shape.
Qed.

(** ** Payloads *)

Lemma assoc_omitempty_last (k : string) (e : bool) (v : json) :
  assoc k (Enc.omitempty e k v) = if e then None else Some v.
Proof. rewrite assoc_omitempty, String.eqb_refl. reflexivity. Qed.

Lemma stringFilter_marshal_new (v : slice string) (i : bool) :
  stringFilter.marshal (NewStringFilter v i) = JObj (value_set JStr i v).
Proof. destruct i, v as [[|x l]|]; reflexivity. Qed.

Lemma eventTypesFilter_marshal_new (i : bool) (v : slice string) (r : bool) :
  eventTypesFilter.marshal
    (if i then eventTypesFilter.mk v None (Some r)
     else eventTypesFilter.mk None v (Some r))
  = JObj (value_set JStr i v ++ [("require_every_value", JBool r)]).
Proof. destruct i, v as [[|x l]|]; reflexivity. Qed.

Lemma archives_member_event_types (a : archivesFilters.t) :
  member "event_types" (archivesFilters.marshal a)
  = eventTypesFilter.marshal <$> archivesFilters.EventTypes a.
Proof.
  unfold archivesFilters.marshal, member.
  rewrite !assoc_omitempty_ne by reflexivity.
  rewrite assoc_omitempty_last.
  now destruct (archivesFilters.EventTypes a).
Qed.

(** The string filter stored under a key of the customers object. *)
Lemma customers_member_strkey (c : customersFilters.t) (k : strkey) :
  member (strkey_key k) (customersFilters.marshal c)
  = stringFilter.marshal
    <$> match k with
        | SCountry => customersFilters.Country c
        | SEmail => customersFilters.Email c
        | SName => customersFilters.Name c
        | SCustomerID => customersFilters.CustomerID c
        end.
Proof.
  unfold customersFilters.marshal, member.
  destruct k; cbn [strkey_key];
    rewrite ?assoc_omitempty_ne by reflexivity;
    rewrite assoc_omitempty_eq;
    match goal with
    | |- _ = _ <$> ?x => destruct x; [reflexivity|]
    end;
    cbn [Enc.empty_ptr isnil];
    rewrite ?assoc_omitempty_ne by reflexivity;
    rewrite assoc_omitempty; now destruct (Enc.empty_ptr _).
Qed.

Lemma customers_member_include (c : customersFilters.t) :
  member "include_customers_without_chats" (customersFilters.marshal c)
  = JBool <$> customersFilters.IncludeCustomersWithoutChats c.
Proof.
  unfold customersFilters.marshal, member.
  rewrite !assoc_omitempty_ne by reflexivity.
  rewrite assoc_omitempty_last.
  now destruct (customersFilters.IncludeCustomersWithoutChats c).
Qed.

(** X9: the object of the property filter [NewPropertyFilterType] builds.
    A nil list gives [exists] alone, also when it is false; a list with
    elements gives [values] or [exclude_values] with
    [require_every_value]; an empty list that is not nil gives
    [require_every_value] alone. *)
Theorem NewPropertyFilterType_payload
    (includes : bool) (vals : slice any) (requireEveryValue : bool) :
  propertyFilterType.marshal
    (NewPropertyFilterType includes vals requireEveryValue)
  = JObj (if isnil vals then [("exists", JBool includes)]
          else value_set id includes vals
               ++ [("require_every_value", JBool requireEveryValue)]).
Proof. destruct includes, vals as [[|x l]|]; reflexivity. Qed.

(** X10: [ByEventTypes] does not tell a nil list from another one: on
    every aggregate, the payload gets [event_types] with
    [require_every_value], and with [values] or [exclude_values] only when
    the list has elements. *)
Theorem ByEventTypes_payload
    (h : gmap loc archivesFilters.t) (af : loc) (a : archivesFilters.t)
    (includes : bool) (vals : slice string) (requireEveryValue : bool) :
  h !! af = Some a ->
  exists a',
    archivesFilters.ByEventTypes af includes vals requireEveryValue h
    = Some (af, <[af := a']> h)
    /\ member "event_types" (archivesFilters.marshal a')
       = Some (JObj (value_set JStr includes vals
                     ++ [("require_every_value", JBool requireEveryValue)])).
Proof.
  intros Ha. eexists. split.
  - apply ByEventTypes_run. exact Ha.
  - rewrite archives_member_event_types.
    cbn [archivesFilters.EventTypes archivesFilters.set_EventTypes fmap
         option_fmap option_map].
    now rewrite eventTypesFilter_marshal_new.
Qed.

Lemma ByEventTypes_payload_witness :
  exists a',
    archivesFilters.ByEventTypes 1%positive true None false
      {[ 1%positive := full_archives ]}
    = Some (1%positive, <[1%positive := a']> {[ 1%positive := full_archives ]})
    /\ member "event_types" (archivesFilters.marshal a')
       = Some (JObj [("require_every_value", JBool false)]).
Proof.
  apply (ByEventTypes_payload {[ 1%positive := full_archives ]} 1%positive
           full_archives true None false).
  reflexivity.
Defined.

Lemma sublist_omitempty (e : bool) (k : string) (v : json)
    (rest : list (string * json)) (ks : list string) :
  sublist (fst <$> rest) ks ->
  sublist (fst <$> (Enc.omitempty e k v ++ rest)) (k :: ks).
Proof.
  intros H. destruct e; cbn.
  - now apply sublist_cons.
  - now apply sublist_skip.
Qed.

Lemma sublist_omitempty_last (e : bool) (k : string) (v : json) :
  sublist (fst <$> Enc.omitempty e k v) [k].
Proof.
  destruct e; cbn.
  - apply sublist_nil_l.
  - reflexivity.
Qed.

Ltac keys_in_order :=
  cbn [keys]; repeat apply sublist_omitempty; apply sublist_omitempty_last.

(** X11: whatever the state of an aggregate, the keys of its payload are
    keys of its struct, each at most once and in the order of the
    struct's fields. *)
Theorem payload_keys_in_order :
  (forall a, sublist (keys (archivesFilters.marshal a)) archives_keys)
  /\ (forall c, sublist (keys (customersFilters.marshal c)) customers_keys)
  /\ (forall c, sublist (keys (chatsFilters.marshal c)) chats_keys)
  /\ (forall f, sublist (keys (threadsFilters.marshal f)) threads_keys).
Proof.
  repeat split; intros x.
  - unfold archivesFilters.marshal, archives_keys. keys_in_order.
  - unfold customersFilters.marshal, customers_keys. keys_in_order.
  - unfold chatsFilters.marshal, chats_keys. keys_in_order.
  - unfold threadsFilters.marshal, threads_keys. keys_in_order.
Qed.

(** X12: after [ByThreads], whatever the aggregate held, the payload is
    the thread-ID list alone; with a nil or empty list it is the empty
    object. *)
Theorem ByThreads_payload
    (h : gmap loc archivesFilters.t) (af : loc) (a : archivesFilters.t)
    (t : slice string) :
  h !! af = Some a ->
  result (do p <- archivesFilters.ByThreads af t;
          payload archivesFilters.marshal p) h
  = Some (JObj (if Enc.empty_slice t then []
                else [("thread_ids", Enc.arr JStr t)]))
  /\ result (do p <- archivesFilters.ByThreads af t;
             archivesFilters.ToJSON p) h
     = Some (Text.encode
               (JObj (if Enc.empty_slice t then []
                      else [("thread_ids", Enc.arr JStr t)]))).
Proof.
  intros Ha. unfold result, payload, archivesFilters.ToJSON.
  rewrite !(bind_run _ _ _ _ _ (ByThreads_run h af a t Ha)).
  rewrite !(bind_run _ _ _ _ _ (load_run _ _ _ (lookup_insert_eq _ _ _))).
  unfold ret. cbn [fmap option_fmap option_map fst].
  assert (E : archivesFilters.marshal
                (archivesFilters.set_ThreadIDs t archivesFilters.zero)
              = JObj (if Enc.empty_slice t then []
                      else [("thread_ids", Enc.arr JStr t)])).
  { destruct t as [[|x l]|]; reflexivity. }
  now rewrite E.
Qed.

Lemma ByThreads_payload_witness :
  result (do p <- archivesFilters.ByThreads 1%positive (Some []);
          payload archivesFilters.marshal p)
    {[ 1%positive := full_archives ]}
  = Some (JObj [])
  /\ result (do p <- archivesFilters.ByThreads 1%positive (Some []);
             archivesFilters.ToJSON p)
       {[ 1%positive := full_archives ]}
     = Some (Text.encode (JObj [])).
Proof.
  apply (ByThreads_payload {[ 1%positive := full_archives ]} 1%positive
           full_archives (Some [])).
  reflexivity.
Defined.

(** X13: the string filters of the customers aggregate ([ByCountry],
    [ByEmail], [ByName], [ByID]) put their key in the payload whatever the
    list: with [values] or [exclude_values] when the list has elements,
    and as an empty object when it is nil or empty. *)
Theorem string_filter_payload
    (h : gmap loc customersFilters.t) (cf : loc) (c : customersFilters.t)
    (k : strkey) (values : slice string) (inclusive : bool) :
  h !! cf = Some c ->
  exists c',
    by_strkey k cf values inclusive h = Some (cf, <[cf := c']> h)
    /\ member (strkey_key k) (customersFilters.marshal c')
       = Some (JObj (value_set JStr inclusive values)).
Proof.
  intros Hc.
  destruct k; cbn [by_strkey];
    (eexists; split; [apply setter_run; exact Hc|]);
    rewrite customers_member_strkey;
    cbn [customersFilters.Country customersFilters.Email
         customersFilters.Name customersFilters.CustomerID
         customersFilters.set_Country customersFilters.set_Email
         customersFilters.set_Name customersFilters.set_CustomerID
         fmap option_fmap option_map];
    now rewrite stringFilter_marshal_new.
Qed.

Lemma string_filter_payload_witness :
  exists c',
    by_strkey SEmail 1%positive (Some []) true
      {[ 1%positive := customersFilters.zero ]}
    = Some (1%positive,
            <[1%positive := c']> {[ 1%positive := customersFilters.zero ]})
    /\ member "email" (customersFilters.marshal c') = Some (JObj []).
Proof.
  apply (string_filter_payload {[ 1%positive := customersFilters.zero ]}
           1%positive customersFilters.zero SEmail (Some []) true).
  reflexivity.
Defined.

(** X14: [WithIncludeCustomersWithoutChats] always shows in the payload:
    [include_customers_without_chats] carries the value given, false as
    well as true. *)
Theorem include_customers_without_chats_payload
    (h : gmap loc customersFilters.t) (cf : loc) (c : customersFilters.t)
    (value : bool) :
  h !! cf = Some c ->
  exists c',
    customersFilters.WithIncludeCustomersWithoutChats cf value h
    = Some (cf, <[cf := c']> h)
    /\ member "include_customers_without_chats" (customersFilters.marshal c')
       = Some (JBool value).
Proof.
  intros Hc. eexists. split.
  - apply setter_run. exact Hc.
  - now rewrite customers_member_include.
Qed.

Lemma include_customers_without_chats_payload_witness :
  exists c',
    customersFilters.WithIncludeCustomersWithoutChats 1%positive false
      {[ 1%positive := customersFilters.zero ]}
    = Some (1%positive,
            <[1%positive := c']> {[ 1%positive := customersFilters.zero ]})
    /\ member "include_customers_without_chats" (customersFilters.marshal c')
       = Some (JBool false).
Proof.
  apply (include_customers_without_chats_payload
           {[ 1%positive := customersFilters.zero ]} 1%positive
           customersFilters.zero false).
  reflexivity.
Defined.

(** X15: no chats payload carries a switch set to false: whatever the
    state of the aggregate, [include_active] and
    [include_chats_without_threads] are true in the payload or absent
    from it. *)
Theorem chats_payload_switches (c : chatsFilters.t) :
  member "include_active" (chatsFilters.marshal c)
  = (if chatsFilters.IncludeActive c then Some (JBool true) else None)
  /\ member "include_chats_without_threads" (chatsFilters.marshal c)
     = (if chatsFilters.IncludeChatsWithoutThreads c then Some (JBool true)
        else None).
Proof.
  unfold chatsFilters.marshal, member. split.
  - rewrite assoc_omitempty_eq.
    destruct (chatsFilters.IncludeActive c); [reflexivity|].
    cbn [Enc.empty_bool negb].
    rewrite !assoc_omitempty_ne by reflexivity.
    rewrite assoc_omitempty. now destruct (Enc.empty_map _).
  - rewrite assoc_omitempty_ne by reflexivity.
    rewrite assoc_omitempty_eq.
    destruct (chatsFilters.IncludeChatsWithoutThreads c); [reflexivity|].
    cbn [Enc.empty_bool negb].
    rewrite !assoc_omitempty_ne by reflexivity.
    rewrite assoc_omitempty. now destruct (Enc.empty_map _).
Qed.
